(** * polymarket-execution: order validation and execution pipeline

    A shallow embedding of [config.py] and [trader.py] and the properties
    of the written specification that concern them.

    Modelling conventions.
    - Python [float] and [int] values are exact rationals ([Q]).  The code
      only compares numbers and forms two products ([price * size] and the
      backoff delay); NaN, infinities and binary rounding are outside the
      model.  Where a property depends on a comparison, it is stated with
      the boolean test the code makes ([le], [lt], [gt]), so that it reads
      the same for a value on which every comparison is false.  The two
      [OverflowError]s of the backoff (conversion of a large power of two,
      and a sleep length outside the time type) are modelled.
    - A Python [str] is a [string]; every character class the code tests is
      a set of ASCII characters.  The line feed is the character [LF].
    - Exceptions are the classes deriving from [Exception]; a [try] block is
      a computation whose outcome is [Ret v] or [Raise e].
    - Stateful code runs in a state monad [M S A := S -> outcome A * S].
      Calls to the external client library are functions on an abstract
      world; each call is recorded in a call log, the way a test double
      records its calls.
    - Logging and wall-clock reads have no influence on control flow and
      are left out. *)

From Stdlib Require Import QArith ZArith String Ascii List Bool Lia.
Import ListNotations.

Set Implicit Arguments.

(* ================================================================= *)
(** ** Python values, exceptions and the execution monad *)

Module Py.

(** Values that may reach the validators through dynamically typed
    parameters. *)
Inductive value : Type :=
| Num (q : Q)
| Str (s : string)
| NoneV.

(** [isinstance(v, str)] *)
Definition is_str (v : value) : bool :=
  match v with Str _ => true | _ => false end.

(** Truth value of an object: zero, the empty string and [None] are
    false. *)
Definition truthy (v : value) : bool :=
  match v with
  | Num q => negb (Qeq_bool q 0)
  | Str s => negb (String.eqb s EmptyString)
  | NoneV => false
  end.

(** Python's rich comparisons on numbers. *)
Definition le (a b : Q) : bool := Qle_bool a b.
Definition lt (a b : Q) : bool := negb (Qle_bool b a).
Definition gt (a b : Q) : bool := lt b a.

(** The line feed character. *)
Definition LF : ascii := "010"%char.

(** Outcome of running a block: a value, or a raised exception of type
    [E]. *)
Inductive outcome (E A : Type) : Type :=
| Ret (v : A)
| Raise (e : E).
Arguments Ret {E A} v.
Arguments Raise {E A} e.

Definition is_raise {E A} (o : outcome E A) : bool :=
  match o with Raise _ => true | Ret _ => false end.

End Py.

(* ================================================================= *)
(** ** The two regular expressions of the code *)

Module Re.
Import Py.

Local Open Scope char_scope.

Definition in_range (lo hi c : ascii) : bool :=
  (nat_of_ascii lo <=? nat_of_ascii c)%nat && (nat_of_ascii c <=? nat_of_ascii hi)%nat.

(** The class [[0-9a-fA-F]]. *)
Definition hex_char (c : ascii) : bool :=
  in_range "0" "9" c || in_range "a" "f" c || in_range "A" "F" c.

(** The class [[a-zA-Z0-9_-]]. *)
Definition token_char (c : ascii) : bool :=
  in_range "a" "z" c || in_range "A" "Z" c || in_range "0" "9" c
  || Ascii.eqb c "_" || Ascii.eqb c "-".

(** The anchor [$] without the MULTILINE flag: it matches at the end of
    the subject and also just before a line feed that ends the subject. *)
Definition at_dollar (rest : string) : bool :=
  match rest with
  | EmptyString => true
  | String c EmptyString => Ascii.eqb c LF
  | _ => false
  end.

(** [bool(re.match(r"^[cls]+$", s))]: one or more characters of the
    class from the start of [s], then [$].  After each consumed character
    the matcher may stop repeating, as the backtracking engine does. *)
Fixpoint match_class_plus_dollar (cls : ascii -> bool) (s : string) : bool :=
  match s with
  | EmptyString => false
  | String c rest =>
      cls c && (at_dollar rest || match_class_plus_dollar cls rest)
  end.

(** Every character of [s] is in the class. *)
Fixpoint all_in (cls : ascii -> bool) (s : string) : bool :=
  match s with
  | EmptyString => true
  | String c rest => cls c && all_in cls rest
  end.

(** [s.replace(old, new)] for a non-empty [old]: occurrences are found
    from the left, do not overlap, and the result is not scanned again.
    [skip] counts the characters of the current occurrence still to be
    dropped. *)
Fixpoint replace_from (old new s : string) (skip : nat) : string :=
  match s with
  | EmptyString => EmptyString
  | String c rest =>
      match skip with
      | S n => replace_from old new rest n
      | O =>
          if String.prefix old s
          then (new ++ replace_from old new rest (String.length old - 1))%string
          else String c (replace_from old new rest 0)
      end
  end.

Definition replace (old new s : string) : string := replace_from old new s 0.

End Re.

(* ================================================================= *)
(** ** config.py *)

Module Limits.
(** The dictionary built by [get_trading_limits]; its three keys are
    fixed, so it is a record. *)
Record TradingLimits : Type := {
  max_order_size : Q;
  min_price : Q;
  min_order_size : Q
}.
End Limits.

Module Config.
Import Py Re.
Local Open Scope string_scope.

Definition POLYGON_MAINNET : Z := 137.
Definition POLYGON_TESTNET : Z := 80001.

(** The attributes of a [PolymarketConfig] object once [__init__] has
    read the settings.  An unset secret or address is [None]. *)
Record PolymarketConfig : Type := {
  host : string;
  chain_id : Z;
  private_key : option string;
  proxy_address : option string;
  signature_type : Z;
  max_order_size : Q;
  connection_timeout : Z;
  request_timeout : Z;
  max_retries : Z
}.

(** [not s] for an attribute that is a string or [None]. *)
Definition missing (s : option string) : bool :=
  match s with
  | None => true
  | Some v => String.eqb v ""
  end.

Definition _is_valid_private_key (private_key : string) : bool :=
  if String.eqb private_key "" then false
  else
    let clean_key := replace "0x" "" private_key in
    Nat.eqb (String.length clean_key) 64
    && match_class_plus_dollar hex_char clean_key.

Definition _is_valid_ethereum_address (address : string) : bool :=
  if String.eqb address "" then false
  else
    let clean_address := replace "0x" "" address in
    Nat.eqb (String.length clean_address) 40
    && match_class_plus_dollar hex_char clean_address.

Inductive warning : Type :=
| UnusualChainId (id : Z).

(** The [errors] list of [validate], in the order it is filled. *)
Definition validate_errors (self : PolymarketConfig) : list string :=
  (if missing (private_key self)
   then ["POLYMARKET_PRIVATE_KEY is required"]
   else
     match private_key self with
     | Some key =>
         if negb (_is_valid_private_key key)
         then ["POLYMARKET_PRIVATE_KEY has invalid format"]
         else []
     | None => []
     end)
  ++
  (if missing (proxy_address self)
   then ["POLYMARKET_PROXY_ADDRESS is required"]
   else
     match proxy_address self with
     | Some address =>
         if negb (_is_valid_ethereum_address address)
         then ["POLYMARKET_PROXY_ADDRESS has invalid format"]
         else []
     | None => []
     end)
  ++
  (if le (max_order_size self) 0
   then ["POLYMARKET_MAX_ORDER_SIZE must be positive"]
   else []).

(** The [warnings] list of [validate]. *)
Definition validate_warnings (self : PolymarketConfig) : list warning :=
  if negb (Z.eqb (chain_id self) POLYGON_MAINNET
           || Z.eqb (chain_id self) POLYGON_TESTNET)
  then [UnusualChainId (chain_id self)]
  else [].

(** [validate] returns [False] exactly when [errors] is non-empty. *)
Definition validate (self : PolymarketConfig) : bool :=
  match validate_errors self with
  | [] => true
  | _ :: _ => false
  end.

Definition get_trading_limits (self : PolymarketConfig) : Limits.TradingLimits :=
  {| Limits.max_order_size := max_order_size self;
     Limits.min_price := 0.01;
     Limits.min_order_size := 0.1 |}.

End Config.

(* ================================================================= *)
(** ** trader.py *)

Module Trader.
Import Py Re.
Local Open Scope string_scope.

(** *** Exceptions *)

(** What a [ValidationError] reports; the payload stands for the
    formatted message. *)
Inductive validation_failure : Type :=
| PriceNotPositive
| SizeNotPositive
| PriceBelowMinimum (price minimum : Q)
| PriceExceedsMaximum (price maximum : Q)
| SizeBelowMinimum (size minimum : Q)
| SizeExceedsMaximum (size maximum : Q)
| TotalCostExceedsLimit (total_cost max_total : Q)
| InvalidTokenId (token_id : value).

(** Exception objects.  [TradingError] is the base of the three trading
    exceptions; [PolyApiException] belongs to the client library;
    [RuntimeError], [ValueError] and [OverflowError] are the built-in
    ones; [OtherException] is any further subclass of [Exception]. *)
Inductive exn : Type :=
| TradingError (msg : string)
| ValidationError (why : validation_failure)
| TradingConnectionError (msg : string)
| OrderError (msg : string)
| PolyApiException (msg : string)
| RuntimeError (msg : string)
| ValueError (msg : string)
| OverflowError (msg : string)
| OtherException (msg : string).

(** [isinstance(e, ValidationError)] and so on, as the [except] clauses
    test it. *)
Definition is_ValidationError (e : exn) : bool :=
  match e with ValidationError _ => true | _ => false end.
Definition is_PolyApiException (e : exn) : bool :=
  match e with PolyApiException _ => true | _ => false end.
Definition is_TradingError (e : exn) : bool :=
  match e with
  | TradingError _ | ValidationError _ | TradingConnectionError _ | OrderError _ => true
  | _ => false
  end.
Definition is_Exception (e : exn) : bool := true.

Definition result (A : Type) : Type := outcome exn A.

(** *** State and exception monad *)

Definition M (S A : Type) : Type := S -> result A * S.

Definition ret {S A} (v : A) : M S A := fun s => (Ret v, s).
Definition raise {S A} (e : exn) : M S A := fun s => (Raise e, s).
Definition bind {S A B} (m : M S A) (k : A -> M S B) : M S B :=
  fun s =>
    match m s with
    | (Ret v, s') => k v s'
    | (Raise e, s') => (Raise e, s')
    end.
Definition lift {S A} (r : result A) : M S A := fun s => (r, s).
Definition get {S} : M S S := fun s => (Ret s, s).
Definition modify {S} (f : S -> S) : M S unit := fun s => (Ret tt, f s).

Notation "x <- m ;; k" := (bind m (fun x => k))
  (at level 61, m at next level, right associativity).
Notation "m ;;; k" := (bind m (fun _ => k))
  (at level 61, right associativity).

(** One [except] clause: the class test and the handler. *)
Definition clause (S A : Type) : Type := ((exn -> bool) * (exn -> M S A))%type.

(** The first clause whose class test accepts [e] handles it; when
    there is none the exception goes on. *)
Fixpoint dispatch {S A} (clauses : list (clause S A)) (e : exn) : M S A :=
  match clauses with
  | [] => raise e
  | (accepts, handler) :: others =>
      if accepts e then handler e else dispatch others e
  end.

(** [try: body  except C1 as e: h1  except C2 as e: h2 ...] *)
Definition try_except {S A} (body : M S A) (clauses : list (clause S A)) : M S A :=
  fun s =>
    match body s with
    | (Ret v, s') => (Ret v, s')
    | (Raise e, s') => dispatch clauses e s'
    end.

(** *** retry_on_failure *)

Definition DEFAULT_MAX_RETRIES : Z := 3.
Definition DEFAULT_RETRY_DELAY : Q := 1.0.

(** [range(n)] *)
Definition range (n : Z) : list Z := map Z.of_nat (seq 0 (Z.to_nat n)).

(** [delay * (2**attempt)] for the float [delay]: the integer power is
    converted to a float before the product is taken, and from [2**1024]
    on that conversion raises [OverflowError].  A product by a power of
    two is exact, so below that bound the rational product is the float
    one; a product beyond the largest float is infinite in Python and
    still a (large) rational here, and [time.sleep] turns both away. *)
Definition exponential_delay (delay : Q) (attempt : Z) : result Q :=
  if (1024 <=? attempt)%Z
  then Raise (OverflowError "int too large to convert to float")
  else Ret (delay * inject_Z (2 ^ attempt))%Q.

(** [time.sleep] converts the length to a signed 64-bit count of
    nanoseconds before anything else; a length that does not fit is an
    [OverflowError], whatever its sign.  (The conversion rounds, so the
    bound is exact up to the last nanoseconds.) *)
Definition SLEEP_NS_MAX : Z := 2 ^ 63.

Definition sleep_length_fits (seconds : Q) : bool :=
  le (inject_Z (- SLEEP_NS_MAX)) (seconds * 1000000000)%Q
  && le (seconds * 1000000000)%Q (inject_Z SLEEP_NS_MAX).

(** The checks of [time.sleep(seconds)] before it sleeps: the range of
    the length first, then its sign. *)
Definition check_sleep_length (seconds : Q) : result unit :=
  if negb (sleep_length_fits seconds)
  then Raise (OverflowError "timestamp too large to convert to C _PyTime_t")
  else if lt seconds 0
  then Raise (ValueError "sleep length must be non-negative")
  else Ret tt.

(** The backoff after the failed attempt with index [attempt] can be
    computed and slept: the power converts to a float, and the length is
    non-negative and at most 9 * 10^9 seconds, inside the range
    [time.sleep] takes. *)
Definition sleepable (delay : Q) (attempt : nat) : Prop :=
  (Z.of_nat attempt < 1024)%Z
  /\ (0 <= delay * inject_Z (2 ^ Z.of_nat attempt))%Q
  /\ (delay * inject_Z (2 ^ Z.of_nat attempt) <= 9000000000)%Q.

Section Retry.
Variables (S Args A : Type).
(** [time.sleep] of the run-time system. *)
Variable time_sleep : Q -> M S unit.
Variables (max_retries : Z) (delay : Q).
Variable func : Args -> M S A.

(** The code after the [for] loop. *)
Definition after_loop (last_exception : option exn) : M S A :=
  match last_exception with
  | Some e => raise e
  | None => raise (RuntimeError "Unexpected error: no exception occurred but retry failed")
  end.

(** The [for attempt in ...] loop over the attempts still to run;
    [last_exception] is the local variable of that name. *)
Fixpoint retry_loop (attempts : list Z) (last_exception : option exn)
         (args : Args) : M S A :=
  match attempts with
  | [] => after_loop last_exception
  | attempt :: rest =>
      try_except (func args)
        [(is_Exception, fun e =>
            let last_exception := Some e in
            if (attempt <? max_retries - 1)%Z
            then seconds <- lift (exponential_delay delay attempt) ;;
                 time_sleep seconds ;;;
                 retry_loop rest last_exception args
            else after_loop last_exception)]
  end.

(** The inner function [wrapper], applied to the arguments of the call. *)
Definition wrapper (args : Args) : M S A :=
  retry_loop (range max_retries) None args.
End Retry.

(** [retry_on_failure(max_retries, delay)(func)] *)
Definition retry_on_failure {S Args A} (time_sleep : Q -> M S unit)
           (max_retries : Z) (delay : Q) (func : Args -> M S A) : Args -> M S A :=
  wrapper time_sleep max_retries delay func.

(** *** The client library (py_clob_client) *)

Definition BUY : string := "BUY".
Definition SELL : string := "SELL".

(** The order-type marker the code uses. *)
Inductive OrderType : Type := GTC.

Record OrderArgs : Type := {
  price : value;
  size : value;
  side : string;
  token_id : value
}.

(** The library is an opaque capability: its objects are abstract, and
    each operation acts on the state of the outside world and returns or
    raises. *)
Record ClobLibrary : Type := {
  World : Type;
  ClobClient : Type;
  ApiCreds : Type;
  SignedOrder : Type;
  Response : Type;
  (** [ClobClient(host=, key=, chain_id=, signature_type=, funder=)] *)
  new_ClobClient :
    string -> option string -> Z -> Z -> option string -> World -> result ClobClient * World;
  create_or_derive_api_creds : ClobClient -> World -> result ApiCreds * World;
  set_api_creds : ClobClient -> ApiCreds -> World -> result unit * World;
  create_order : ClobClient -> OrderArgs -> World -> result SignedOrder * World;
  post_order : ClobClient -> SignedOrder -> OrderType -> World -> result Response * World
}.

(** Entries of the call log. *)
Inductive call : Type :=
| Call_ClobClient (host : string) (key : option string) (chain_id signature_type : Z)
                  (funder : option string)
| Call_create_or_derive_api_creds
| Call_set_api_creds
| Call_create_order (order_args : OrderArgs)
| Call_post_order (order_type : OrderType)
| Call_sleep (seconds : Q).

Definition is_create_order (c : call) : bool :=
  match c with Call_create_order _ => true | _ => false end.
Definition is_ClobClient (c : call) : bool :=
  match c with Call_ClobClient _ _ _ _ _ => true | _ => false end.
Definition is_sleep (c : call) : bool :=
  match c with Call_sleep _ => true | _ => false end.

(** *** PolymarketTrader *)

Definition MAX_PRICE : Q := 1.0.
Definition MIN_PRICE : Q := 0.0.

Definition _validate_token_id (token_id : value) : bool :=
  if negb (truthy token_id) || negb (is_str token_id) then false
  else
    match token_id with
    | Str s => match_class_plus_dollar token_char s
    | _ => false
    end.

(** The numeric checks, in the order of the code; the first one that
    fails raises. *)
Definition _validate_order_params (limits : Limits.TradingLimits)
           (price size : value) (side : string) : result unit :=
  match price with
  | Num price =>
      if le price 0 then Raise (ValidationError PriceNotPositive)
      else
        match size with
        | Num size =>
            if le size 0 then Raise (ValidationError SizeNotPositive)
            else if lt price (Limits.min_price limits)
            then Raise (ValidationError (PriceBelowMinimum price (Limits.min_price limits)))
            else if gt price MAX_PRICE
            then Raise (ValidationError (PriceExceedsMaximum price MAX_PRICE))
            else if lt size (Limits.min_order_size limits)
            then Raise (ValidationError (SizeBelowMinimum size (Limits.min_order_size limits)))
            else if gt size (Limits.max_order_size limits)
            then Raise (ValidationError (SizeExceedsMaximum size (Limits.max_order_size limits)))
            else
              let total_cost := (price * size)%Q in
              let max_total := (MAX_PRICE * Limits.max_order_size limits)%Q in
              if gt total_cost max_total
              then Raise (ValidationError (TotalCostExceedsLimit total_cost max_total))
              else Ret tt
        | _ => Raise (ValidationError SizeNotPositive)
        end
  | _ => Raise (ValidationError PriceNotPositive)
  end.

(** The seven checks, read as one condition on two numbers. *)
Definition within_limits (limits : Limits.TradingLimits) (p s : Q) : Prop :=
  (0 < p /\ 0 < s
  /\ Limits.min_price limits <= p /\ p <= MAX_PRICE
  /\ Limits.min_order_size limits <= s /\ s <= Limits.max_order_size limits
  /\ p * s <= MAX_PRICE * Limits.max_order_size limits)%Q.

Section Engine.
Variable lib : ClobLibrary.

(** The attributes of a trader object. *)
Record PolymarketTrader : Type := {
  config : Config.PolymarketConfig;
  client : option (ClobClient lib);
  _trading_limits : Limits.TradingLimits;
  _is_initialized : bool
}.

(** The trader object, the outside world, and the log of the calls
    made to the library and to [time.sleep]. *)
Record state : Type := {
  self : PolymarketTrader;
  world : World lib;
  calls : list call
}.

Definition E (A : Type) : Type := M state A.

(** Run a library operation on the world and log the call. *)
Definition external {A} (c : call) (op : World lib -> result A * World lib) : E A :=
  fun s =>
    let (r, w) := op (world s) in
    (r, {| self := self s; world := w; calls := calls s ++ [c] |}).

Definition set_client (c : ClobClient lib) : E unit :=
  modify (fun s =>
    {| self := {| config := config (self s); client := Some c;
                  _trading_limits := _trading_limits (self s);
                  _is_initialized := _is_initialized (self s) |};
       world := world s; calls := calls s |}).

Definition set_is_initialized (b : bool) : E unit :=
  modify (fun s =>
    {| self := {| config := config (self s); client := client (self s);
                  _trading_limits := _trading_limits (self s);
                  _is_initialized := b |};
       world := world s; calls := calls s |}).

(** [time.sleep(seconds)]: the checks of the length, then the sleep. *)
Definition time_sleep (seconds : Q) : E unit :=
  lift (check_sleep_length seconds) ;;;
  modify (fun s =>
    {| self := self s; world := world s; calls := calls s ++ [Call_sleep seconds] |}).

Definition __init__ (config : Config.PolymarketConfig) : PolymarketTrader :=
  {| config := config;
     client := None;
     _trading_limits := Config.get_trading_limits config;
     _is_initialized := false |}.

(** The body of [initialize_client], before decoration. *)
Definition initialize_client_body (_ : unit) : E bool :=
  try_except
    (s <- get ;;
     let cfg := config (self s) in
     c <- external
            (Call_ClobClient (Config.host cfg) (Config.private_key cfg)
               (Config.chain_id cfg) (Config.signature_type cfg)
               (Config.proxy_address cfg))
            (new_ClobClient lib (Config.host cfg) (Config.private_key cfg)
               (Config.chain_id cfg) (Config.signature_type cfg)
               (Config.proxy_address cfg)) ;;
     set_client c ;;;
     api_creds <- external Call_create_or_derive_api_creds
                    (create_or_derive_api_creds lib c) ;;
     external Call_set_api_creds (set_api_creds lib c api_creds) ;;;
     set_is_initialized true ;;;
     ret true)
    [(is_Exception, fun e => set_is_initialized false ;;; ret false)].

(** [initialize_client] as decorated. *)
Definition initialize_client : E bool :=
  retry_on_failure time_sleep DEFAULT_MAX_RETRIES DEFAULT_RETRY_DELAY
    initialize_client_body tt.

(** Truth value of [self.client]: a client object is true, [None] is
    false. *)
Definition has_client (t : PolymarketTrader) : bool :=
  match client t with Some _ => true | None => false end.

(** The guard that opens every operation:
    [not self._is_initialized or not self.client]. *)
Definition not_ready (t : PolymarketTrader) : bool :=
  negb (_is_initialized t) || negb (has_client t).

(** The engine is in the ready state. *)
Definition ready (t : PolymarketTrader) : bool := negb (not_ready t).

Definition _place_order (token_id price size : value) (side : string) : E bool :=
  s <- get ;;
  if not_ready (self s)
  then raise (TradingConnectionError "Client not initialized")
  else
    match client (self s) with
    | None => raise (TradingConnectionError "Client not initialized")
    | Some the_client =>
        try_except
          ((if negb (_validate_token_id token_id)
            then raise (ValidationError (InvalidTokenId token_id))
            else ret tt) ;;;
           lift (_validate_order_params (_trading_limits (self s)) price size side) ;;;
           let order_args :=
             {| price := price; size := size; side := side; token_id := token_id |} in
           signed_order <- external (Call_create_order order_args)
                             (create_order lib the_client order_args) ;;
           response <- external (Call_post_order GTC)
                         (post_order lib the_client signed_order GTC) ;;
           ret true)
          [(is_ValidationError, fun e => ret false);
           (is_PolyApiException, fun e => ret false);
           (is_Exception, fun e => ret false)]
    end.

Definition place_buy_order (token_id price size : value) : E bool :=
  _place_order token_id price size BUY.

Definition place_sell_order (token_id price size : value) : E bool :=
  _place_order token_id price size SELL.

(** A dictionary literal, as the list of its items. *)
Definition dict : Type := list (string * value).

Definition get_order_status (order_id : string) : E (option dict) :=
  s <- get ;;
  if not_ready (self s)
  then raise (TradingConnectionError "Client not initialized")
  else
    try_except
      (ret (Some [("order_id", Str order_id); ("status", Str "unknown")]))
      [(is_Exception, fun e => ret None)].

Definition cancel_order (order_id : string) : E bool :=
  s <- get ;;
  if not_ready (self s)
  then raise (TradingConnectionError "Client not initialized")
  else
    try_except (ret true) [(is_Exception, fun e => ret false)].

(** The calls logged while [m] runs from [s]. *)
Definition calls_during {A} (m : E A) (s : state) : list call :=
  skipn (List.length (calls s)) (calls (snd (m s))).

End Engine.

End Trader.

(* ================================================================= *)
(** ** The secret format as the specification words it *)

Module Spec.
Import Re.
Local Open Scope string_scope.

(** Exactly 64 hexadecimal characters. *)
Definition hex64 (s : string) : bool :=
  Nat.eqb (String.length s) 64 && all_in hex_char s.

(** The specification's pattern for the authentication secret: exactly
    64 hexadecimal characters, optionally preceded by ["0x"]. *)
Definition secret_pattern (s : string) : bool :=
  hex64 s
  || match s with
     | String c0 (String c1 body) =>
         Ascii.eqb c0 "0" && Ascii.eqb c1 "x" && hex64 body
     | _ => false
     end.
End Spec.

(* ================================================================= *)
(** ** Test doubles and sample inputs *)

Module Fixtures.
Import Py Trader.
Local Open Scope string_scope.

(** [c * n] *)
Fixpoint times (c : ascii) (n : nat) : string :=
  match n with
  | O => EmptyString
  | S n' => String c (times c n')
  end.

(** A test double for a wrapped operation: the outcome of its [i]-th
    call is [side_effect i], and it counts its calls.  The sleeps of the
    wrapper are recorded beside it. *)
Record mock_state : Type := {
  call_count : nat;
  slept : list Q
}.

Definition fresh : mock_state := {| call_count := 0; slept := [] |}.

Definition mock {A} (side_effect : nat -> result A) (_ : unit) : M mock_state A :=
  fun s =>
    (side_effect (call_count s),
     {| call_count := Datatypes.S (call_count s); slept := slept s |}).

Definition mock_sleep (seconds : Q) : M mock_state unit :=
  lift (check_sleep_length seconds) ;;;
  modify (fun s =>
    {| call_count := call_count s; slept := slept s ++ [seconds] |}).

(** The delays slept after the failed attempts [a], ..., [a+n-1]. *)
Definition backoff (delay : Q) (a n : nat) : list Q :=
  map (fun i => (delay * inject_Z (2 ^ Z.of_nat i))%Q) (seq a n).

(** An operation that raises on its first two calls and then returns. *)
Definition flaky (i : nat) : result nat :=
  if (i <? 2)%nat then Raise (OtherException "Connection failed") else Ret 7%nat.

(** An operation that raises on every call, each time another exception. *)
Definition always_failing (i : nat) : result nat :=
  Raise (OtherException (times "I" (Datatypes.S i))).

(** A library whose every operation returns. *)
Definition working_library : ClobLibrary :=
  {| World := unit; ClobClient := unit; ApiCreds := unit;
     SignedOrder := OrderArgs; Response := string;
     new_ClobClient := fun _ _ _ _ _ w => (Ret tt, w);
     create_or_derive_api_creds := fun _ w => (Ret tt, w);
     set_api_creds := fun _ _ w => (Ret tt, w);
     create_order := fun _ order_args w => (Ret order_args, w);
     post_order := fun _ _ _ w => (Ret "123", w) |}.

(** A library whose session constructor raises on every call. *)
Definition failing_library : ClobLibrary :=
  {| World := unit; ClobClient := unit; ApiCreds := unit;
     SignedOrder := OrderArgs; Response := string;
     new_ClobClient := fun _ _ _ _ _ w => (Raise (OtherException "Connection failed"), w);
     create_or_derive_api_creds := fun _ w => (Ret tt, w);
     set_api_creds := fun _ _ w => (Ret tt, w);
     create_order := fun _ order_args w => (Ret order_args, w);
     post_order := fun _ _ _ w => (Ret "123", w) |}.

(** A well-formed configuration with the default order-size limit. *)
Definition sample_config : Config.PolymarketConfig :=
  {| Config.host := "https://clob.polymarket.com";
     Config.chain_id := 137;
     Config.private_key := Some ("0x" ++ times "a" 64);
     Config.proxy_address := Some ("0x" ++ times "b" 40);
     Config.signature_type := 1;
     Config.max_order_size := 1000.0;
     Config.connection_timeout := 30;
     Config.request_timeout := 10;
     Config.max_retries := 3 |}.

Definition with_max_order_size (c : Config.PolymarketConfig) (m : Q)
  : Config.PolymarketConfig :=
  {| Config.host := Config.host c;
     Config.chain_id := Config.chain_id c;
     Config.private_key := Config.private_key c;
     Config.proxy_address := Config.proxy_address c;
     Config.signature_type := Config.signature_type c;
     Config.max_order_size := m;
     Config.connection_timeout := Config.connection_timeout c;
     Config.request_timeout := Config.request_timeout c;
     Config.max_retries := Config.max_retries c |}.

Definition with_private_key (c : Config.PolymarketConfig) (k : option string)
  : Config.PolymarketConfig :=
  {| Config.host := Config.host c;
     Config.chain_id := Config.chain_id c;
     Config.private_key := k;
     Config.proxy_address := Config.proxy_address c;
     Config.signature_type := Config.signature_type c;
     Config.max_order_size := Config.max_order_size c;
     Config.connection_timeout := Config.connection_timeout c;
     Config.request_timeout := Config.request_timeout c;
     Config.max_retries := Config.max_retries c |}.

(** The state right after [PolymarketTrader(config)]. *)
Definition constructed (lib : ClobLibrary) (w : World lib)
           (config : Config.PolymarketConfig) : state lib :=
  {| self := __init__ lib config; world := w; calls := [] |}.

(** A trader in the ready state, as the tests set one up. *)
Definition ready_state : state working_library :=
  {| self := {| config := sample_config;
                client := Some (tt : ClobClient working_library);
                _trading_limits := Config.get_trading_limits sample_config;
                _is_initialized := true |};
     world := (tt : World working_library);
     calls := [] |}.

End Fixtures.

(* ================================================================= *)
(** ** The runs of an order placement *)

Module Runs.
Import Py Trader.
Local Open Scope string_scope.
Local Open Scope list_scope.

(** The possible runs of [_place_order] from a state [s], case by case:
    the outcome, and the state it leaves.  The relation is what the
    properties of the engine are read from; [place_order_runs] below shows
    that every run of the code is one of these. *)
Inductive place_order_run (lib : ClobLibrary)
          (token_id price size : value) (side : string) (s : state lib)
  : result bool * state lib -> Prop :=
| Run_not_ready :
    ready (self s) = false ->
    place_order_run token_id price size side s
      (Raise (TradingConnectionError "Client not initialized"), s)
| Run_invalid_token :
    ready (self s) = true ->
    _validate_token_id token_id = false ->
    place_order_run token_id price size side s (Ret false, s)
| Run_invalid_params (why : exn) :
    ready (self s) = true ->
    _validate_token_id token_id = true ->
    _validate_order_params (_trading_limits (self s)) price size side = Raise why ->
    place_order_run token_id price size side s (Ret false, s)
| Run_signing_failed (order_args : OrderArgs) (s' : state lib) :
    ready (self s) = true ->
    _validate_token_id token_id = true ->
    _validate_order_params (_trading_limits (self s)) price size side = Ret tt ->
    order_args = {| Trader.price := price; Trader.size := size;
                    Trader.side := side; Trader.token_id := token_id |} ->
    self s' = self s ->
    calls s' = calls s ++ [Call_create_order order_args] ->
    place_order_run token_id price size side s (Ret false, s')
| Run_submitted (answer : bool) (order_args : OrderArgs) (s' : state lib) :
    ready (self s) = true ->
    _validate_token_id token_id = true ->
    _validate_order_params (_trading_limits (self s)) price size side = Ret tt ->
    order_args = {| Trader.price := price; Trader.size := size;
                    Trader.side := side; Trader.token_id := token_id |} ->
    self s' = self s ->
    calls s' = calls s ++ [Call_create_order order_args; Call_post_order GTC] ->
    place_order_run token_id price size side s (Ret answer, s').

(** The operations a caller can invoke on a trader, and the state each
    leaves behind, whether it returns or raises. *)
Inductive operation : Type :=
| Op_initialize_client
| Op_place_buy_order (token_id price size : value)
| Op_place_sell_order (token_id price size : value)
| Op_get_order_status (order_id : string)
| Op_cancel_order (order_id : string).

Definition perform (lib : ClobLibrary) (op : operation) (s : state lib) : state lib :=
  match op with
  | Op_initialize_client => snd (initialize_client s)
  | Op_place_buy_order token_id price size => snd (place_buy_order token_id price size s)
  | Op_place_sell_order token_id price size => snd (place_sell_order token_id price size s)
  | Op_get_order_status order_id => snd (get_order_status order_id s)
  | Op_cancel_order order_id => snd (cancel_order order_id s)
  end.

Definition perform_all (lib : ClobLibrary) (ops : list operation) (s : state lib)
  : state lib :=
  fold_left (fun s op => perform op s) ops s.

End Runs.

(* ================================================================= *)
(** ** config.py: reading the settings *)

Module Environment.
Import Py Re Trader.
Local Open Scope string_scope.

(** What the loader writes to the log at warning level. *)
Inductive log_warning : Type :=
| PrivateKeyFormat
| ProxyAddressFormat
| InvalidSignatureType (sig_type : Z)
| InvalidSignatureTypeFormat.

(** Loading runs with the log as its state. *)
Definition L (A : Type) : Type := M (list log_warning) A.

Definition warning (w : log_warning) : L unit :=
  modify (fun log => log ++ [w])%list.

Definition VALID_SIGNATURE_TYPES : list Z := [1; 2]%Z.

Section Loading.

(** [os.environ], as the partial map [os.getenv] reads. *)
Variable environ : string -> option string.

(** The built-in conversions on a string: the number, or [None] when the
    conversion raises [ValueError]. *)
Variable int : string -> option Z.
Variable float : string -> option Q.

(** [os.getenv(name)] and [os.getenv(name, default)] *)
Definition getenv (name : string) : option string := environ name.
Definition getenv_default (name default : string) : string :=
  match environ name with
  | Some v => v
  | None => default
  end.

Definition to_int (s : string) : L Z :=
  match int s with
  | Some n => ret n
  | None => raise (ValueError "invalid literal for int()")
  end.

Definition to_float (s : string) : L Q :=
  match float s with
  | Some q => ret q
  | None => raise (ValueError "could not convert string to float")
  end.

Definition is_ValueError (e : exn) : bool :=
  match e with ValueError _ => true | _ => false end.

Definition _get_private_key : L (option string) :=
  let private_key := getenv "POLYMARKET_PRIVATE_KEY" in
  (match private_key with
   | Some key =>
       if negb (Config.missing private_key) && negb (Config._is_valid_private_key key)
       then warning PrivateKeyFormat
       else ret tt
   | None => ret tt
   end) ;;;
  ret private_key.

Definition _get_proxy_address : L (option string) :=
  let proxy_address := getenv "POLYMARKET_PROXY_ADDRESS" in
  (match proxy_address with
   | Some address =>
       if negb (Config.missing proxy_address)
          && negb (Config._is_valid_ethereum_address address)
       then warning ProxyAddressFormat
       else ret tt
   | None => ret tt
   end) ;;;
  ret proxy_address.

Definition _get_signature_type : L Z :=
  try_except
    (sig_type <- to_int (getenv_default "POLYMARKET_SIGNATURE_TYPE" "1") ;;
     if negb (existsb (Z.eqb sig_type) VALID_SIGNATURE_TYPES)
     then warning (InvalidSignatureType sig_type) ;;; ret 1%Z
     else ret sig_type)
    [(is_ValueError, fun _ => warning InvalidSignatureTypeFormat ;;; ret 1%Z)].

(** [PolymarketConfig()]; the default of the chain id is
    [str(POLYGON_MAINNET)]. *)
Definition __init__ : L Config.PolymarketConfig :=
  let host := getenv_default "POLYMARKET_HOST" "https://clob.polymarket.com" in
  chain_id <- to_int (getenv_default "POLYMARKET_CHAIN_ID" "137") ;;
  private_key <- _get_private_key ;;
  proxy_address <- _get_proxy_address ;;
  signature_type <- _get_signature_type ;;
  max_order_size <- to_float (getenv_default "POLYMARKET_MAX_ORDER_SIZE" "1000.0") ;;
  connection_timeout <- to_int (getenv_default "POLYMARKET_CONNECTION_TIMEOUT" "30") ;;
  request_timeout <- to_int (getenv_default "POLYMARKET_REQUEST_TIMEOUT" "10") ;;
  max_retries <- to_int (getenv_default "POLYMARKET_MAX_RETRIES" "3") ;;
  ret {| Config.host := host;
         Config.chain_id := chain_id;
         Config.private_key := private_key;
         Config.proxy_address := proxy_address;
         Config.signature_type := signature_type;
         Config.max_order_size := max_order_size;
         Config.connection_timeout := connection_timeout;
         Config.request_timeout := request_timeout;
         Config.max_retries := max_retries |}.

End Loading.

End Environment.

(* ================================================================= *)
(** ** cli.py *)

Module Cli.
Import Py Re Trader.
Local Open Scope string_scope.

(** The namespace [parse_args] returns for the [trade] command.  The
    parser makes [token_id] a string and [price], [size] floats; the
    validator still tests the numbers against [None], so they are
    optional here.  [command] is [None] when no command was given. *)
Record Namespace : Type := {
  command : option string;
  token_id : string;
  price : option Q;
  size : option Q;
  side : string;
  dry_run : bool
}.

(** A number of the namespace as the value handed to the trader. *)
Definition as_value (x : option Q) : value :=
  match x with
  | Some q => Num q
  | None => NoneV
  end.

(** [str.upper] on the letters a-z; the parser lets only ["buy"] and
    ["sell"] through as a side. *)
Definition upper_char (c : ascii) : ascii :=
  if in_range "a" "z" c then ascii_of_nat (nat_of_ascii c - 32) else c.

Fixpoint upper (s : string) : string :=
  match s with
  | EmptyString => EmptyString
  | String c rest => String (upper_char c) (upper rest)
  end.

Definition validate_trade_args (args : Namespace) : bool :=
  if String.eqb (token_id args) "" then false
  else
    match price args with
    | None => false
    | Some p =>
        match size args with
        | None => false
        | Some sz =>
            if negb (le 0.01 p && le p 1.0) then false
            else if le sz 0 then false
            else true
        end
    end.

(** What [main] hands back to the process: it returns, or it leaves
    through [sys.exit(code)]. *)
Inductive exit_status : Type :=
| Returned
| Exit (code : Z).

Section Commands.
Variable lib : ClobLibrary.

(** [price * size] inside the printed summary of a dry run; a missing
    number makes the product a [TypeError]. *)
Definition printed_total (args : Namespace) : E lib Q :=
  match price args, size args with
  | Some p, Some sz => ret (p * sz)%Q
  | _, _ => raise (OtherException "TypeError: unsupported operand type(s) for *")
  end.

Definition is_TradingConnectionError (e : exn) : bool :=
  match e with TradingConnectionError _ => true | _ => false end.

Definition handle_trade_command (args : Namespace) : E lib bool :=
  let side := side args in
  if dry_run args
  then
    printed_total args ;;;
    s <- get ;;
    try_except
      (lift (_validate_order_params (_trading_limits (self s))
               (as_value (price args)) (as_value (size args)) (upper side)) ;;;
       ret true)
      [(is_ValidationError, fun _ => ret false)]
  else
    try_except
      (success <- (if String.eqb side "buy"
                   then place_buy_order (Str (token_id args))
                          (as_value (price args)) (as_value (size args))
                   else place_sell_order (Str (token_id args))
                          (as_value (price args)) (as_value (size args))) ;;
       if success then ret true else ret false)
      [(is_ValidationError, fun _ => ret false);
       (is_TradingConnectionError, fun _ => ret false);
       (is_Exception, fun _ => ret false)].

(** [trader = PolymarketTrader(config)] *)
Definition construct_trader (config : Config.PolymarketConfig) : E lib unit :=
  modify (fun s =>
    {| self := Trader.__init__ lib config; world := world s; calls := calls s |}).

(** [main] from the point where the arguments are parsed and the
    configuration object [config] is built. *)
Definition main (args : Namespace) (config : Config.PolymarketConfig)
  : E lib exit_status :=
  match command args with
  | None => ret Returned
  | Some name =>
      if String.eqb name "" then ret Returned
      else if negb (Config.validate config) then ret (Exit 1)
      else
        construct_trader config ;;;
        initialized <- @initialize_client lib ;;
        if negb initialized then ret (Exit 1)
        else
          if String.eqb name "trade"
          then
            if negb (validate_trade_args args) then ret (Exit 1)
            else
              success <- handle_trade_command args ;;
              ret (Exit (if success then 0 else 1))
          else ret (Exit 1)
  end.

End Commands.

End Cli.

(* ================================================================= *)
(** ** Sample settings and arguments *)

Module Samples.
Import Py Trader Fixtures.
Local Open Scope string_scope.

(** An environment with nothing set. *)
Definition empty_environ (name : string) : option string := None.

(** An environment that sets the two required values, the secret in a
    wrong format. *)
Definition environ_with_bad_key (name : string) : option string :=
  if String.eqb name "POLYMARKET_PRIVATE_KEY" then Some "invalid_key"
  else if String.eqb name "POLYMARKET_PROXY_ADDRESS" then Some ("0x" ++ times "b" 40)
  else if String.eqb name "POLYMARKET_SIGNATURE_TYPE" then Some "7"
  else None.

(** Conversions that know the literals the samples use. *)
Definition sample_int (s : string) : option Z :=
  if String.eqb s "137" then Some 137%Z
  else if String.eqb s "1" then Some 1%Z
  else if String.eqb s "7" then Some 7%Z
  else if String.eqb s "30" then Some 30%Z
  else if String.eqb s "10" then Some 10%Z
  else if String.eqb s "3" then Some 3%Z
  else None.

Definition sample_float (s : string) : option Q :=
  if String.eqb s "1000.0" then Some 1000.0%Q else None.

(** [trade --token-id token123 --price 0.6 --size 10.0] *)
Definition trade_args : Cli.Namespace :=
  {| Cli.command := Some "trade";
     Cli.token_id := "token123";
     Cli.price := Some 0.6%Q;
     Cli.size := Some 10.0%Q;
     Cli.side := "buy";
     Cli.dry_run := false |}.

Definition with_dry_run (args : Cli.Namespace) : Cli.Namespace :=
  {| Cli.command := Cli.command args;
     Cli.token_id := Cli.token_id args;
     Cli.price := Cli.price args;
     Cli.size := Cli.size args;
     Cli.side := Cli.side args;
     Cli.dry_run := true |}.

(** A library whose signing raises. *)
Definition no_signing_library : ClobLibrary :=
  {| World := unit; ClobClient := unit; ApiCreds := unit;
     SignedOrder := OrderArgs; Response := string;
     new_ClobClient := fun _ _ _ _ _ w => (Ret tt, w);
     create_or_derive_api_creds := fun _ w => (Ret tt, w);
     set_api_creds := fun _ _ w => (Ret tt, w);
     create_order := fun _ _ w => (Raise (OtherException "Order failed"), w);
     post_order := fun _ _ _ w => (Ret "123", w) |}.

(** A trader in the ready state over any library. *)
Definition ready_with (lib : ClobLibrary) (c : ClobClient lib) (w : World lib)
  : state lib :=
  {| self := {| config := sample_config;
                client := Some c;
                _trading_limits := Config.get_trading_limits sample_config;
                _is_initialized := true |};
     world := w;
     calls := [] |}.

(** The time slept in all, given the list of the sleeps. *)
Definition total_delay (sleeps : list Q) : Q := fold_right Qplus 0%Q sleeps.

(** A library whose credential derivation raises. *)
Definition no_credentials_library : ClobLibrary :=
  {| World := unit; ClobClient := unit; ApiCreds := unit;
     SignedOrder := OrderArgs; Response := string;
     new_ClobClient := fun _ _ _ _ _ w => (Ret tt, w);
     create_or_derive_api_creds :=
       fun _ w => (Raise (PolyApiException "Unauthorized"), w);
     set_api_creds := fun _ _ w => (Ret tt, w);
     create_order := fun _ order_args w => (Ret order_args, w);
     post_order := fun _ _ _ w => (Ret "123", w) |}.

(** A library that signs and then fails to submit. *)
Definition no_submission_library : ClobLibrary :=
  {| World := unit; ClobClient := unit; ApiCreds := unit;
     SignedOrder := OrderArgs; Response := string;
     new_ClobClient := fun _ _ _ _ _ w => (Ret tt, w);
     create_or_derive_api_creds := fun _ w => (Ret tt, w);
     set_api_creds := fun _ _ w => (Ret tt, w);
     create_order := fun _ order_args w => (Ret order_args, w);
     post_order := fun _ _ _ w => (Raise (PolyApiException "Bad request"), w) |}.

End Samples.

(* ================================================================= *)
(** * Properties *)

From Stdlib Require Import Lqa.

Import Py Re Trader Fixtures Runs.

(* ================================================================= *)
(** ** Comparisons *)

Section Comparisons.
Local Open Scope Q_scope.

Lemma le_iff (a b : Q) : le a b = true <-> (a <= b).
Proof. apply Qle_bool_iff. Qed.

Lemma lt_iff (a b : Q) : lt a b = true <-> (a < b).
Proof.
  unfold lt. rewrite negb_true_iff. split; intro H.
  - apply Qnot_le_lt. intro Hle. apply Qle_bool_iff in Hle. congruence.
  - destruct (Qle_bool b a) eqn:E; [|reflexivity].
    apply Qle_bool_iff in E. exfalso. exact (Qlt_not_le _ _ H E).
Qed.

Lemma lt_false_iff (a b : Q) : lt a b = false <-> (b <= a).
Proof.
  unfold lt. rewrite negb_false_iff. apply Qle_bool_iff.
Qed.

Lemma le_false_iff (a b : Q) : le a b = false <-> (b < a).
Proof.
  rewrite <- lt_iff. unfold lt, le. destruct (Qle_bool a b); simpl; intuition congruence.
Qed.

End Comparisons.

(* ================================================================= *)
(** ** Parameter validation *)

Section OrderParameters.
Local Open Scope Q_scope.

Variable limits : Limits.TradingLimits.

Lemma validate_order_params_accepts (p s : Q) (side : string) :
  within_limits limits p s ->
  _validate_order_params limits (Num p) (Num s) side = Ret tt.
Proof.
  intros (Hp & Hs & Hmin & Hmax & Hsmin & Hsmax & Htotal).
  unfold _validate_order_params, gt.
  assert (E1 : le p 0 = false) by (apply le_false_iff; exact Hp).
  assert (E2 : le s 0 = false) by (apply le_false_iff; exact Hs).
  assert (E3 : lt p (Limits.min_price limits) = false) by (apply lt_false_iff; exact Hmin).
  assert (E4 : lt MAX_PRICE p = false) by (apply lt_false_iff; exact Hmax).
  assert (E5 : lt s (Limits.min_order_size limits) = false) by (apply lt_false_iff; exact Hsmin).
  assert (E6 : lt (Limits.max_order_size limits) s = false) by (apply lt_false_iff; exact Hsmax).
  assert (E7 : lt (MAX_PRICE * Limits.max_order_size limits) (p * s) = false)
    by (apply lt_false_iff; exact Htotal).
  rewrite E1, E2, E3, E4, E5, E6, E7. reflexivity.
Qed.

Lemma validate_order_params_rejects (p s : Q) (side : string) :
  _validate_order_params limits (Num p) (Num s) side = Ret tt ->
  within_limits limits p s.
Proof.
  unfold _validate_order_params, gt, within_limits.
  destruct (le p 0) eqn:E1; [discriminate|].
  destruct (le s 0) eqn:E2; [discriminate|].
  destruct (lt p (Limits.min_price limits)) eqn:E3; [discriminate|].
  destruct (lt MAX_PRICE p) eqn:E4; [discriminate|].
  destruct (lt s (Limits.min_order_size limits)) eqn:E5; [discriminate|].
  destruct (lt (Limits.max_order_size limits) s) eqn:E6; [discriminate|].
  destruct (lt (MAX_PRICE * Limits.max_order_size limits) (p * s)) eqn:E7; [discriminate|].
  intros _.
  apply le_false_iff in E1, E2. apply lt_false_iff in E3, E4, E5, E6, E7.
  repeat split; assumption.
Qed.

(** Anything that is not a number is turned away by the first check that
    meets it. *)
Lemma validate_order_params_number (price size : value) (side : string) :
  _validate_order_params limits price size side = Ret tt ->
  exists p s, price = Num p /\ size = Num s.
Proof.
  destruct price as [p| |]; simpl; try discriminate.
  destruct (le p 0); [discriminate|].
  destruct size as [s| |]; try discriminate.
  intros _. exists p, s. split; reflexivity.
Qed.

End OrderParameters.

Section ConfiguredLimits.
Local Open Scope Q_scope.

(** C1, as the specification states it, fails: a price between 0 and the
    configured minimum price 0.01 meets every stated condition and is
    rejected by the minimum-price check. *)
Lemma C1_price_below_minimum_rejected :
  let limits := Config.get_trading_limits sample_config in
  let p := 0.005 in
  let s := 1 in
  0 < p /\ p <= 1.0
  /\ 0.1 <= s /\ s <= Limits.max_order_size limits
  /\ p * s <= Limits.max_order_size limits
  /\ _validate_order_params limits (Num p) (Num s) BUY
     = Raise (ValidationError (PriceBelowMinimum p 0.01)).
Proof.
  cbv zeta. repeat split; try (vm_compute; congruence).
Qed.

(** C1 (amended): under the limits the configuration produces, every
    price p with 0.01 <= p <= 1.0 and every size s with 0.1 <= s <= m and
    p * s <= m passes [_validate_order_params], whatever the side. *)
Theorem C1_validation_succeeds_within_limits
        (config : Config.PolymarketConfig) (p s : Q) (side : string) :
  let m := Config.max_order_size config in
  0.01 <= p -> p <= 1.0 ->
  0.1 <= s -> s <= m ->
  p * s <= m ->
  _validate_order_params (Config.get_trading_limits config) (Num p) (Num s) side = Ret tt.
Proof.
  intros m Hp1 Hp2 Hs1 Hs2 Hps.
  apply validate_order_params_accepts.
  unfold within_limits, MAX_PRICE. simpl. fold m.
  repeat split; try lra.
Qed.

Lemma C1_validation_succeeds_within_limits_witness :
  _validate_order_params (Config.get_trading_limits sample_config)
    (Num 0.60) (Num 10.0) BUY = Ret tt.
Proof.
  apply (C1_validation_succeeds_within_limits sample_config (p := 0.60) (s := 10.0) BUY);
    vm_compute; congruence.
Defined.

End ConfiguredLimits.

(* ================================================================= *)
(** ** The retry wrapper *)

Section RetryWrapper.
Local Open Scope Q_scope.

Variable A : Type.
Variable side_effect : nat -> result A.
Variables (N : Z) (delay : Q).

Let loop := retry_loop mock_sleep N delay (mock side_effect).

(** A backoff that is [sleepable] passes the conversion and the checks of
    [time.sleep]. *)
Lemma sleepable_accepted (a : nat) :
  sleepable delay a ->
  exponential_delay delay (Z.of_nat a) = Ret (delay * inject_Z (2 ^ Z.of_nat a))
  /\ check_sleep_length (delay * inject_Z (2 ^ Z.of_nat a)) = Ret tt.
Proof.
  intros (Hlt & Hlo & Hhi). split.
  - unfold exponential_delay.
    destruct (Z.leb_spec 1024 (Z.of_nat a)); [lia | reflexivity].
  - unfold check_sleep_length.
    assert (Hfits : sleep_length_fits (delay * inject_Z (2 ^ Z.of_nat a)) = true).
    { unfold sleep_length_fits, SLEEP_NS_MAX.
      change (inject_Z (- 2 ^ 63)) with (-9223372036854775808 # 1).
      change (inject_Z (2 ^ 63)) with (9223372036854775808 # 1).
      apply andb_true_iff. split; apply le_iff; lra. }
    rewrite Hfits. cbn [negb].
    assert (Hsign : lt (delay * inject_Z (2 ^ Z.of_nat a)) 0 = false)
      by (apply lt_false_iff; exact Hlo).
    rewrite Hsign. reflexivity.
Qed.

Lemma mock_sleep_runs (a : nat) (s : mock_state) :
  sleepable delay a ->
  mock_sleep (delay * inject_Z (2 ^ Z.of_nat a)) s
  = (Ret tt, {| call_count := call_count s;
                slept := slept s ++ [delay * inject_Z (2 ^ Z.of_nat a)] |}).
Proof.
  intro Hs. destruct (sleepable_accepted Hs) as [_ Hcheck].
  unfold mock_sleep, bind, lift. rewrite Hcheck. reflexivity.
Qed.

(** One failed attempt that is not the last one: sleep, then go on. *)
Lemma loop_step_retry (a : nat) (rest : list Z) (last : option exn)
      (s : mock_state) (e : exn) :
  sleepable delay a ->
  call_count s = a ->
  side_effect a = Raise e ->
  (Z.of_nat a < N - 1)%Z ->
  loop (Z.of_nat a :: rest) last tt s
  = loop rest (Some e) tt
      {| call_count := Datatypes.S a;
         slept := slept s ++ [delay * inject_Z (2 ^ Z.of_nat a)] |}.
Proof.
  intros Hs Hc He Hlt. subst a.
  destruct (sleepable_accepted Hs) as [Hdelay _].
  unfold loop. cbn [retry_loop]. unfold try_except, mock at 1. rewrite He.
  cbn [dispatch is_Exception].
  apply Z.ltb_lt in Hlt. rewrite Hlt.
  unfold bind at 1, lift. rewrite Hdelay.
  unfold bind at 1. rewrite (mock_sleep_runs _ Hs). reflexivity.
Qed.

(** The operation fails on calls [a .. k-1] and returns on call [k]. *)
Lemma loop_returns (k : nat) (v : A) :
  (forall i, (i < k)%nat -> sleepable delay i) ->
  (forall i, (i < k)%nat -> is_raise (side_effect i) = true) ->
  side_effect k = Ret v ->
  forall (n a : nat) (last : option exn) (s : mock_state),
    (a <= k)%nat -> (k < a + n)%nat -> (Z.of_nat (a + n) <= N)%Z ->
    call_count s = a ->
    loop (map Z.of_nat (seq a n)) last tt s
    = (Ret v, {| call_count := Datatypes.S k;
                 slept := slept s ++ backoff delay a (k - a) |}).
Proof.
  intros Hd Hfail Hret. induction n as [|n IH]; intros a last s Hak Hkn HN Hc.
  - lia.
  - change (map Z.of_nat (seq a (Datatypes.S n)))
      with (Z.of_nat a :: map Z.of_nat (seq (Datatypes.S a) n)).
    destruct (Nat.eq_dec a k) as [->|Hne].
    + unfold loop. cbn [retry_loop]. unfold try_except, mock. rewrite Hc, Hret.
      rewrite Nat.sub_diag. unfold backoff. cbn [seq map]. rewrite app_nil_r.
      destruct s; cbn in *; subst; reflexivity.
    + assert (Hlt : (a < k)%nat) by lia.
      pose proof (Hfail a Hlt) as Hraise.
      destruct (side_effect a) as [|e] eqn:He; [discriminate|].
      rewrite (@loop_step_retry a _ _ _ e (Hd a Hlt) Hc He) by lia.
      rewrite IH by (simpl; lia). cbn [slept].
      replace (k - a)%nat with (Datatypes.S (k - Datatypes.S a)) by lia.
      unfold backoff. cbn [seq map]. rewrite <- app_assoc. reflexivity.
Qed.

(** The operation fails on every remaining call. *)
Lemma loop_exhausts :
  (forall i : nat, (Z.of_nat i < N - 1)%Z -> sleepable delay i) ->
  (forall i, is_raise (side_effect i) = true) ->
  forall (n a : nat) (last : option exn) (s : mock_state),
    Z.of_nat (a + Datatypes.S n) = N ->
    call_count s = a ->
    exists e,
      side_effect (a + n) = Raise e
      /\ loop (map Z.of_nat (seq a (Datatypes.S n))) last tt s
         = (Raise e, {| call_count := Datatypes.S (a + n);
                        slept := slept s ++ backoff delay a n |}).
Proof.
  intros Hd Hfail. induction n as [|n IH]; intros a last s HN Hc.
  - specialize (Hfail a). destruct (side_effect a) as [|e] eqn:He; [discriminate|].
    exists e. rewrite Nat.add_0_r. split; [exact He|].
    unfold loop. cbn [seq map retry_loop]. unfold try_except, mock. rewrite Hc, He.
    cbn [dispatch is_Exception].
    assert (Hge : (Z.of_nat a <? N - 1)%Z = false) by (apply Z.ltb_ge; lia).
    rewrite Hge. unfold backoff. cbn [seq map after_loop raise]. rewrite app_nil_r.
    destruct s; cbn in *; subst; reflexivity.
  - pose proof (Hfail a) as Ha.
    destruct (side_effect a) as [|e] eqn:He; [discriminate|].
    change (map Z.of_nat (seq a (Datatypes.S (Datatypes.S n))))
      with (Z.of_nat a :: map Z.of_nat (seq (Datatypes.S a) (Datatypes.S n))).
    rewrite (@loop_step_retry a _ _ _ e (Hd a ltac:(lia)) Hc He) by lia.
    destruct (IH (Datatypes.S a) (Some e)
                {| call_count := Datatypes.S a;
                   slept := slept s ++ [delay * inject_Z (2 ^ Z.of_nat a)] |})
      as (e' & He' & Hrun); [lia | reflexivity |].
    exists e'. replace (a + Datatypes.S n)%nat with (Datatypes.S a + n)%nat by lia.
    split; [exact He'|]. rewrite Hrun. cbn [slept].
    unfold backoff. cbn [seq map]. rewrite <- app_assoc. reflexivity.
Qed.

(** C3 (amended): for every attempt count N >= 1 and every wrapped
    operation, provided each backoff the wrapper has to make can be
    computed and slept (after the failed attempt with index i: i < 1024
    and 0 <= D * 2^i <= 9 * 10^9 seconds): when the operation raises on
    exactly its first k invocations (k < N) and then returns v, the
    wrapped call returns v and the operation has been invoked exactly k+1
    times; when the operation raises on every invocation, the wrapped
    call invokes it exactly N times and raises the exception of the last
    invocation. *)
Theorem C3_retry_returns_or_propagates :
  (1 <= N)%Z ->
  let run := retry_on_failure mock_sleep N delay (mock side_effect) tt fresh in
  (forall (k : nat) (v : A),
      (Z.of_nat k < N)%Z ->
      (forall i, (i < k)%nat -> sleepable delay i) ->
      (forall i, (i < k)%nat -> is_raise (side_effect i) = true) ->
      side_effect k = Ret v ->
      fst run = Ret v /\ call_count (snd run) = Datatypes.S k)
  /\ ((forall i : nat, (Z.of_nat i < N - 1)%Z -> sleepable delay i) ->
      (forall i, is_raise (side_effect i) = true) ->
      exists e,
        side_effect (Z.to_nat N - 1) = Raise e
        /\ fst run = Raise e
        /\ call_count (snd run) = Z.to_nat N).
Proof.
  intros HN run. subst run. unfold retry_on_failure, wrapper, range. split.
  - intros k v Hk Hd Hfail Hret.
    fold loop.
    rewrite (@loop_returns k v Hd Hfail Hret (Z.to_nat N) 0%nat None fresh) by (simpl; lia).
    split; reflexivity.
  - intros Hd Hfail.
    destruct (Z.to_nat N) as [|n] eqn:En; [lia|].
    destruct (@loop_exhausts Hd Hfail n 0%nat None fresh)
      as (e & He & Hrun); [simpl; lia | reflexivity |].
    exists e. fold loop. rewrite Hrun. simpl in *.
    rewrite Nat.sub_0_r. repeat split; assumption.
Qed.

(** The sleeps between attempts follow the exponential schedule
    D * 2^0, D * 2^1, ..., one after each failed attempt, as long as each
    of these backoffs can be computed and slept. *)
Lemma retry_backoff_schedule (k : nat) (v : A) :
  (Z.of_nat k < N)%Z ->
  (forall i, (i < k)%nat -> sleepable delay i) ->
  (forall i, (i < k)%nat -> is_raise (side_effect i) = true) ->
  side_effect k = Ret v ->
  slept (snd (retry_on_failure mock_sleep N delay (mock side_effect) tt fresh))
  = backoff delay 0 k.
Proof.
  intros Hk Hd Hfail Hret. unfold retry_on_failure, wrapper, range. fold loop.
  rewrite (@loop_returns k v Hd Hfail Hret (Z.to_nat N) 0%nat None fresh) by (simpl; lia).
  simpl. rewrite Nat.sub_0_r. reflexivity.
Qed.

(** C9: when the retry wrapper is instantiated with a maximum attempt
    count of 0 or less, calling the wrapped operation raises a
    RuntimeError and the operation is invoked zero times. *)
Theorem C9_no_attempts_raises_runtime_error :
  (N <= 0)%Z ->
  let run := retry_on_failure mock_sleep N delay (mock side_effect) tt fresh in
  fst run = Raise (RuntimeError "Unexpected error: no exception occurred but retry failed")
  /\ call_count (snd run) = 0%nat
  /\ slept (snd run) = [].
Proof.
  intros HN run. subst run. unfold retry_on_failure, wrapper, range.
  replace (Z.to_nat N) with 0%nat by lia. simpl. repeat split; reflexivity.
Qed.

End RetryWrapper.

(** The default delay 1.0 can be slept after each of the first attempts. *)
Lemma default_delay_sleepable (i : nat) : (i < 30)%nat -> sleepable 1.0 i.
Proof.
  intro Hi. unfold sleepable.
  assert (Hpow : (0 < 2 ^ Z.of_nat i <= 2 ^ 30)%Z).
  { split; [apply Z.pow_pos_nonneg; lia | apply Z.pow_le_mono_r; lia]. }
  change (2 ^ 30)%Z with 1073741824%Z in Hpow.
  split; [lia|].
  assert (H0 : (inject_Z 0 <= inject_Z (2 ^ Z.of_nat i))%Q)
    by (rewrite <- Zle_Qle; lia).
  assert (H1 : (inject_Z (2 ^ Z.of_nat i) <= inject_Z 1073741824)%Q)
    by (rewrite <- Zle_Qle; lia).
  change (inject_Z 0) with 0%Q in H0.
  change (inject_Z 1073741824) with (1073741824 # 1)%Q in H1.
  split; lra.
Qed.

(** C3, as stated, fails: with a negative base delay the first backoff is
    a negative sleep, so an operation that raises on every invocation is
    invoked once, not N = 3 times, and what the caller gets is the
    [ValueError] of [time.sleep], not the exception of an invocation. *)
Lemma C3_negative_delay_stops_after_one_call :
  let run := retry_on_failure mock_sleep 3 (-1.0) (mock always_failing) tt fresh in
  (1 <= 3)%Z
  /\ (forall i, is_raise (always_failing i) = true)
  /\ call_count (snd run) = 1%nat
  /\ call_count (snd run) <> Z.to_nat 3
  /\ fst run = Raise (ValueError "sleep length must be non-negative")
  /\ fst run <> always_failing (Z.to_nat 3 - 1).
Proof.
  cbv zeta. repeat split; vm_compute; congruence.
Qed.

Lemma C3_retry_returns_or_propagates_witness :
  (fst (retry_on_failure mock_sleep 3 1.0 (mock flaky) tt fresh) = Ret 7%nat
   /\ call_count (snd (retry_on_failure mock_sleep 3 1.0 (mock flaky) tt fresh)) = 3%nat)
  /\ (exists e,
        always_failing 2 = Raise e
        /\ fst (retry_on_failure mock_sleep 3 1.0 (mock always_failing) tt fresh) = Raise e
        /\ call_count (snd (retry_on_failure mock_sleep 3 1.0 (mock always_failing) tt fresh))
           = 3%nat).
Proof.
  split.
  - apply (proj1 (@C3_retry_returns_or_propagates nat flaky 3 1.0 ltac:(lia))
             2%nat 7%nat).
    + lia.
    + intros i Hi. apply default_delay_sleepable. lia.
    + intros i Hi. destruct i as [|[|i]]; [reflexivity | reflexivity | lia].
    + reflexivity.
  - apply (proj2 (@C3_retry_returns_or_propagates nat always_failing 3 1.0 ltac:(lia))).
    + intros i Hi. apply default_delay_sleepable. lia.
    + intro i. reflexivity.
Defined.

Lemma C9_no_attempts_raises_runtime_error_witness :
  fst (retry_on_failure mock_sleep 0 1.0 (mock flaky) tt fresh)
  = Raise (RuntimeError "Unexpected error: no exception occurred but retry failed")
  /\ call_count (snd (retry_on_failure mock_sleep 0 1.0 (mock flaky) tt fresh)) = 0%nat
  /\ slept (snd (retry_on_failure mock_sleep 0 1.0 (mock flaky) tt fresh)) = [].
Proof.
  apply (@C9_no_attempts_raises_runtime_error nat flaky 0 1.0). lia.
Defined.

(** With no attempt to make, the wrapper raises at once and leaves the
    state as it found it, whatever the operation and the state are. *)
Lemma retry_without_attempts (S Args A : Type) (sleep : Q -> M S unit)
      (N : Z) (delay : Q) (func : Args -> M S A) (args : Args) (s : S) :
  (N <= 0)%Z ->
  retry_on_failure sleep N delay func args s
  = (Raise (RuntimeError "Unexpected error: no exception occurred but retry failed"), s).
Proof.
  intro HN. unfold retry_on_failure, wrapper, range.
  replace (Z.to_nat N) with 0%nat by lia. reflexivity.
Qed.

(** An operation that returns at its first call is called once, and the
    wrapper adds nothing to it. *)
Lemma retry_first_attempt_returns (S Args A : Type) (sleep : Q -> M S unit)
      (N : Z) (delay : Q) (func : Args -> M S A) (args : Args) (s : S) (v : A) :
  (1 <= N)%Z ->
  fst (func args s) = Ret v ->
  retry_on_failure sleep N delay func args s = func args s.
Proof.
  intros HN Hv. unfold retry_on_failure, wrapper, range.
  destruct (Z.to_nat N) as [|n] eqn:En; [lia|].
  simpl. unfold try_except.
  destruct (func args s) as [[v'|e] s']; simpl in Hv; [reflexivity | discriminate].
Qed.

(* ================================================================= *)
(** ** The execution engine *)

Section EngineProperties.

Variable lib : ClobLibrary.

Lemma skipn_own_length (X : Type) (l new : list X) :
  skipn (List.length l) (l ++ new) = new.
Proof.
  rewrite skipn_app, skipn_all, Nat.sub_diag. reflexivity.
Qed.

Lemma calls_during_unchanged (A : Type) (m : E lib A) (s : state lib) :
  calls (snd (m s)) = calls s -> calls_during m s = [].
Proof.
  intro H. unfold calls_during. rewrite H. apply skipn_all.
Qed.

Lemma calls_during_appended (A : Type) (m : E lib A) (s : state lib) (new : list call) :
  calls (snd (m s)) = calls s ++ new -> calls_during m s = new.
Proof.
  intro H. unfold calls_during. rewrite H. apply skipn_own_length.
Qed.

(** The three [except] clauses of [_place_order] turn every exception
    into the answer [False]. *)
Lemma place_order_clauses_answer_false (e : exn) (s : state lib) :
  dispatch
    [(is_ValidationError, fun _ => ret false);
     (is_PolyApiException, fun _ => ret false);
     (is_Exception, fun _ : exn => ret false)] e s
  = (Ret false, s).
Proof.
  destruct e; reflexivity.
Qed.

Lemma ready_has_client (t : PolymarketTrader lib) :
  ready t = true -> exists c, client t = Some c /\ _is_initialized t = true.
Proof.
  unfold ready, not_ready, has_client.
  destruct (_is_initialized t), (client t) as [c|]; simpl; try discriminate.
  intros _. exists c. split; reflexivity.
Qed.

Lemma not_ready_ready (t : PolymarketTrader lib) :
  not_ready t = negb (ready t).
Proof.
  unfold ready. rewrite negb_involutive. reflexivity.
Qed.

Lemma place_order_runs (token_id price size : value) (side : string) (s : state lib) :
  place_order_run token_id price size side s (_place_order token_id price size side s).
Proof.
  unfold _place_order, bind, get.
  rewrite not_ready_ready.
  destruct (ready (self s)) eqn:Hready; cbn [negb]; [|apply Run_not_ready; exact Hready].
  destruct (ready_has_client _ Hready) as (c & Hc & _). rewrite Hc.
  unfold try_except, bind.
  destruct (_validate_token_id token_id) eqn:Htok; cbn [negb raise ret].
  - unfold lift.
    destruct (_validate_order_params (_trading_limits (self s)) price size side)
      as [[]|why] eqn:Hpar.
    + unfold external at 1.
      destruct (create_order lib c _ (world s)) as [[signed|e] w1] eqn:Hcreate.
      * unfold external. cbn [world self calls].
        destruct (post_order lib c signed GTC w1) as [[response|e] w2] eqn:Hpost.
        -- eapply Run_submitted; eauto. cbn [calls]. rewrite <- app_assoc. reflexivity.
        -- rewrite place_order_clauses_answer_false.
           eapply Run_submitted; eauto. cbn [calls]. rewrite <- app_assoc. reflexivity.
      * rewrite place_order_clauses_answer_false.
        eapply Run_signing_failed; eauto.
    + rewrite place_order_clauses_answer_false.
      eapply Run_invalid_params; eauto.
  - rewrite place_order_clauses_answer_false.
    apply Run_invalid_token; assumption.
Qed.

(** The calls made while an order placement runs: none, the signing
    request alone, or the signing request followed by the submission. *)
Lemma place_order_calls (token_id price size : value) (side : string) (s : state lib) :
  let order_args := {| Trader.price := price; Trader.size := size;
                       Trader.side := side; Trader.token_id := token_id |} in
  let made := calls_during (_place_order token_id price size side) s in
  made = []
  \/ (ready (self s) = true
      /\ _validate_token_id token_id = true
      /\ _validate_order_params (_trading_limits (self s)) price size side = Ret tt
      /\ (made = [Call_create_order order_args]
          \/ made = [Call_create_order order_args; Call_post_order GTC])).
Proof.
  intros order_args made. subst made order_args.
  pose proof (place_order_runs token_id price size side s) as Hrun.
  unfold calls_during.
  destruct Hrun as [Hr | Hr Ht | why Hr Ht Hp | args s' Hr Ht Hp Hargs Hself Hcalls
                    | answer args s' Hr Ht Hp Hargs Hself Hcalls]; cbn [snd].
  - left. apply skipn_all.
  - left. apply skipn_all.
  - left. apply skipn_all.
  - right. subst args. rewrite Hcalls, skipn_own_length. auto.
  - right. subst args. rewrite Hcalls, skipn_own_length. auto.
Qed.

(** C2: in every execution of [place_buy_order] / [place_sell_order] (both
    are [_place_order] with a side), when the signing capability
    [client.create_order] is invoked then the engine was ready, the
    token-id validation and all numeric checks had passed, the order
    handed over is built from the validated arguments, and no other call
    to the library came before it. *)
Theorem C2_signing_only_after_validation
        (token_id price size : value) (side : string) (s : state lib)
        (order_args : OrderArgs) :
  In (Call_create_order order_args)
     (calls_during (_place_order token_id price size side) s) ->
  ready (self s) = true
  /\ _validate_token_id token_id = true
  /\ _validate_order_params (_trading_limits (self s)) price size side = Ret tt
  /\ order_args = {| Trader.price := price; Trader.size := size;
                     Trader.side := side; Trader.token_id := token_id |}
  /\ exists later,
       calls_during (_place_order token_id price size side) s
       = Call_create_order order_args :: later.
Proof.
  intro Hin.
  destruct (place_order_calls token_id price size side s)
    as [Hnone | (Hr & Ht & Hp & [Hone | Htwo])].
  - rewrite Hnone in Hin. destruct Hin.
  - rewrite Hone in Hin. destruct Hin as [Heq | []].
    injection Heq as <-. repeat split; try assumption.
    exists []. exact Hone.
  - rewrite Htwo in Hin. destruct Hin as [Heq | [Heq | []]]; [|discriminate].
    injection Heq as <-. repeat split; try assumption.
    exists [Call_post_order GTC]. exact Htwo.
Qed.

(** C5 (amended): calling [place_buy_order] or [place_sell_order] while the
    engine is not in the ready state raises [TradingConnectionError] to
    the caller instead of returning a boolean; the state is left as it
    was, so [create_order] (or any other library call) is not invoked
    during that call. *)
Theorem C5_not_ready_raises_connection_error
        (token_id price size : value) (s : state lib) :
  ready (self s) = false ->
  place_buy_order token_id price size s
  = (Raise (TradingConnectionError "Client not initialized"), s)
  /\ place_sell_order token_id price size s
     = (Raise (TradingConnectionError "Client not initialized"), s)
  /\ calls_during (place_buy_order token_id price size) s = []
  /\ calls_during (place_sell_order token_id price size) s = [].
Proof.
  intro Hr.
  assert (Hrun : forall side,
             _place_order token_id price size side s
             = (Raise (TradingConnectionError "Client not initialized"), s)).
  { intro side. unfold _place_order, bind, get.
    rewrite not_ready_ready, Hr. reflexivity. }
  unfold place_buy_order, place_sell_order.
  repeat split; try apply Hrun;
    apply calls_during_unchanged; rewrite Hrun; reflexivity.
Qed.

(** C8: whenever the engine is in the ready state, [get_order_status]
    returns the dictionary with the items order_id -> the given id and
    status -> unknown, and [cancel_order] returns true, for every order
    id; neither changes the state, so neither calls the library. *)
Theorem C8_status_and_cancel_are_stubs (order_id : string) (s : state lib) :
  ready (self s) = true ->
  get_order_status order_id s
  = (Ret (Some [("order_id"%string, Str order_id); ("status"%string, Str "unknown")]), s)
  /\ cancel_order order_id s = (Ret true, s)
  /\ calls_during (get_order_status order_id) s = []
  /\ calls_during (cancel_order order_id) s = [].
Proof.
  intro Hr.
  assert (Hstatus : get_order_status order_id s
            = (Ret (Some [("order_id"%string, Str order_id);
                          ("status"%string, Str "unknown")]), s)).
  { unfold get_order_status, bind, get. rewrite not_ready_ready, Hr. reflexivity. }
  assert (Hcancel : cancel_order order_id s = (Ret true, s)).
  { unfold cancel_order, bind, get. rewrite not_ready_ready, Hr. reflexivity. }
  repeat split; try assumption;
    apply calls_during_unchanged; [rewrite Hstatus | rewrite Hcancel]; reflexivity.
Qed.

(** Status and cancellation on an engine that is not ready raise, like
    order placement. *)
Lemma status_and_cancel_not_ready (order_id : string) (s : state lib) :
  ready (self s) = false ->
  get_order_status order_id s
  = (Raise (TradingConnectionError "Client not initialized"), s)
  /\ cancel_order order_id s
     = (Raise (TradingConnectionError "Client not initialized"), s).
Proof.
  intro Hr. unfold get_order_status, cancel_order, bind, get.
  rewrite not_ready_ready, Hr. split; reflexivity.
Qed.

(** A valid request on a ready engine reaches the signing capability with
    the arguments as given. *)
Lemma place_order_valid_reaches_signing
      (token_id : value) (p sz : Q) (side : string) (s : state lib) :
  ready (self s) = true ->
  _validate_token_id token_id = true ->
  within_limits (_trading_limits (self s)) p sz ->
  exists later,
    calls_during (_place_order token_id (Num p) (Num sz) side) s
    = Call_create_order {| Trader.price := Num p; Trader.size := Num sz;
                           Trader.side := side; Trader.token_id := token_id |}
      :: later.
Proof.
  intros Hr Ht Hw.
  pose proof (validate_order_params_accepts side Hw) as Hp.
  pose proof (place_order_runs token_id (Num p) (Num sz) side s) as Hrun.
  unfold calls_during.
  destruct Hrun as [Hr' | Hr' Ht' | why Hr' Ht' Hp' | args s' Hr' Ht' Hp' Hargs Hself Hcalls
                    | answer args s' Hr' Ht' Hp' Hargs Hself Hcalls]; cbn [snd];
    try congruence.
  - subst args. rewrite Hcalls, skipn_own_length. eauto.
  - subst args. rewrite Hcalls, skipn_own_length. eauto.
Qed.

End EngineProperties.

Lemma C2_signing_only_after_validation_witness :
  ready (self ready_state) = true
  /\ _validate_token_id (Str "token123") = true
  /\ _validate_order_params (_trading_limits (self ready_state))
       (Num 0.6) (Num 10.0) BUY = Ret tt.
Proof.
  pose proof (@C2_signing_only_after_validation working_library
                (Str "token123") (Num 0.6) (Num 10.0) BUY ready_state
                {| Trader.price := Num 0.6; Trader.size := Num 10.0;
                   Trader.side := BUY; Trader.token_id := Str "token123" |}
                ltac:(vm_compute; left; reflexivity)) as (Hr & Ht & Hp & _).
  repeat split; assumption.
Defined.

(** C5, as stated, fails: on a trader that has just been constructed the
    call does not return false, it raises. *)
Lemma C5_place_order_before_initialization_raises :
  let s := constructed working_library tt sample_config in
  ready (self s) = false
  /\ fst (place_buy_order (Str "token123") (Num 0.5) (Num 10.0) s)
     = Raise (TradingConnectionError "Client not initialized")
  /\ fst (place_buy_order (Str "token123") (Num 0.5) (Num 10.0) s) <> Ret false.
Proof.
  cbv zeta. repeat split; try reflexivity. vm_compute. discriminate.
Qed.

Lemma C5_not_ready_raises_connection_error_witness :
  place_buy_order (Str "token123") (Num 0.5) (Num 10.0)
    (constructed working_library tt sample_config)
  = (Raise (TradingConnectionError "Client not initialized"),
     constructed working_library tt sample_config).
Proof.
  apply (@C5_not_ready_raises_connection_error working_library
           (Str "token123") (Num 0.5) (Num 10.0)
           (constructed working_library tt sample_config)).
  reflexivity.
Defined.

Lemma C8_status_and_cancel_are_stubs_witness :
  get_order_status "123" ready_state
  = (Ret (Some [("order_id"%string, Str "123"); ("status"%string, Str "unknown")]),
     ready_state)
  /\ cancel_order "123" ready_state = (Ret true, ready_state).
Proof.
  pose proof (@C8_status_and_cancel_are_stubs working_library "123" ready_state
                ltac:(reflexivity)) as (Hs & Hc & _).
  split; assumption.
Defined.

(* ================================================================= *)
(** ** The anchored patterns *)

Section Patterns.
Local Open Scope string_scope.

Variable cls : ascii -> bool.

Lemma match_all_in (s : string) :
  s <> "" -> all_in cls s = true -> match_class_plus_dollar cls s = true.
Proof.
  induction s as [|c rest IH]; intros Hne Hall; [congruence|].
  simpl in *. apply andb_true_iff in Hall as [Hc Hrest]. rewrite Hc. simpl.
  destruct rest as [|d rest']; [reflexivity|].
  rewrite IH by (congruence || assumption). apply orb_true_r.
Qed.

(** [$] lets one final line feed through. *)
Lemma match_all_in_then_newline (t : string) :
  t <> "" -> all_in cls t = true ->
  match_class_plus_dollar cls (t ++ String LF "") = true.
Proof.
  induction t as [|c rest IH]; intros Hne Hall; [congruence|].
  simpl in *. apply andb_true_iff in Hall as [Hc Hrest]. rewrite Hc. simpl.
  destruct rest as [|d rest']; [reflexivity|].
  rewrite IH by (congruence || assumption). apply orb_true_r.
Qed.

(** The strings the pattern accepts: a non-empty run of the class, and
    possibly one line feed after it. *)
Lemma match_class_plus_dollar_spec (s : string) :
  match_class_plus_dollar cls s = true
  <-> exists t, t <> "" /\ all_in cls t = true /\ (s = t \/ s = t ++ String LF "").
Proof.
  split.
  - induction s as [|c rest IH]; simpl; [discriminate|].
    intro H. apply andb_true_iff in H as [Hc H].
    apply orb_true_iff in H as [Hend | Hmore].
    + destruct rest as [|d [|]]; simpl in Hend; try discriminate.
      * exists (String c ""). simpl. rewrite Hc. repeat split; [discriminate | auto].
      * apply Ascii.eqb_eq in Hend. subst d.
        exists (String c ""). simpl. rewrite Hc. repeat split; [discriminate | auto].
    + destruct (IH Hmore) as (t & Hne & Hall & Hs).
      exists (String c t). simpl. rewrite Hc, Hall.
      repeat split; [discriminate|].
      destruct Hs as [-> | ->]; [left | right]; reflexivity.
  - intros (t & Hne & Hall & [-> | ->]).
    + apply match_all_in; assumption.
    + apply match_all_in_then_newline; assumption.
Qed.

End Patterns.

Lemma hex_char_not_x : hex_char "x" = false.
Proof. reflexivity. Qed.

Lemma prefix_cons (a b : ascii) (s1 s2 : string) :
  String.prefix (String a s1) (String b s2)
  = if ascii_dec a b then String.prefix s1 s2 else false.
Proof. reflexivity. Qed.

(** A string of hexadecimal digits has no occurrence of ["0x"], so the
    replacement leaves it alone. *)
Lemma replace_0x_hex (s : string) :
  all_in hex_char s = true -> replace "0x" "" s = s.
Proof.
  unfold replace. induction s as [|c rest IH]; intro Hall; [reflexivity|].
  simpl in Hall. apply andb_true_iff in Hall as [Hc Hrest].
  cbn [replace_from].
  destruct (String.prefix "0x" (String c rest)) eqn:Hpre.
  - exfalso. rewrite prefix_cons in Hpre.
    destruct (ascii_dec "0" c); [|discriminate].
    destruct rest as [|d rest']; [discriminate|].
    rewrite prefix_cons in Hpre.
    destruct (ascii_dec "x" d) as [<-|]; [|discriminate].
    cbn [all_in] in Hrest. rewrite hex_char_not_x in Hrest. discriminate.
  - rewrite IH by assumption. reflexivity.
Qed.

Section TokenIdentifier.
Local Open Scope string_scope.

Variable lib : ClobLibrary.

(** C10: for every non-empty string t whose characters are all in
    [a-zA-Z0-9_-], the token-id validator accepts t followed by one line
    feed, and on a ready engine with parameters within the limits that
    token id is handed to [create_order] inside the order arguments. *)
Theorem C10_token_id_with_trailing_newline_accepted (t : string) :
  t <> "" ->
  all_in token_char t = true ->
  let token_id := Str (t ++ String LF "") in
  _validate_token_id token_id = true
  /\ forall (s : state lib) (p sz : Q) (side : string),
       ready (self s) = true ->
       within_limits (_trading_limits (self s)) p sz ->
       exists later,
         calls_during (_place_order token_id (Num p) (Num sz) side) s
         = Call_create_order {| Trader.price := Num p; Trader.size := Num sz;
                                Trader.side := side; Trader.token_id := token_id |}
           :: later.
Proof.
  intros Hne Hall token_id.
  assert (Hvalid : _validate_token_id token_id = true).
  { unfold token_id, _validate_token_id. simpl.
    destruct t as [|c rest]; [congruence|]. simpl.
    apply (match_all_in_then_newline token_char (t := String c rest)); assumption. }
  split; [exact Hvalid|].
  intros s p sz side Hr Hw.
  apply place_order_valid_reaches_signing; assumption.
Qed.

End TokenIdentifier.

Lemma C10_token_id_with_trailing_newline_accepted_witness :
  _validate_token_id (Str ("token123" ++ String LF "")) = true
  /\ calls_during
       (_place_order (Str ("token123" ++ String LF "")) (Num 0.6) (Num 10.0) BUY)
       ready_state
     = [Call_create_order {| Trader.price := Num 0.6; Trader.size := Num 10.0;
                             Trader.side := BUY;
                             Trader.token_id := Str ("token123" ++ String LF "") |};
        Call_post_order GTC].
Proof.
  pose proof (@C10_token_id_with_trailing_newline_accepted working_library "token123"
                ltac:(discriminate) ltac:(reflexivity)) as [Hv _].
  split; [exact Hv | reflexivity].
Defined.

(* ================================================================= *)
(** ** The authentication secret *)

Section SecretFormat.
Local Open Scope string_scope.

Lemma hex64_not_empty (s : string) : Spec.hex64 s = true -> s <> "".
Proof.
  intros H ->. discriminate.
Qed.

Lemma hex64_accepted (s : string) :
  Spec.hex64 s = true ->
  Nat.eqb (String.length s) 64 && match_class_plus_dollar hex_char s = true.
Proof.
  intro H. pose proof (hex64_not_empty H) as Hne.
  unfold Spec.hex64 in H. apply andb_true_iff in H as [Hlen Hall].
  rewrite Hlen, match_all_in by assumption. reflexivity.
Qed.

(** Every secret of the specified format passes the check of the code. *)
Lemma secret_pattern_accepted (s : string) :
  Spec.secret_pattern s = true -> Config._is_valid_private_key s = true.
Proof.
  unfold Spec.secret_pattern. intro H. apply orb_true_iff in H as [H | H].
  - pose proof (hex64_not_empty H) as Hne.
    unfold Config._is_valid_private_key.
    destruct (String.eqb_spec s ""); [contradiction|].
    pose proof H as H'. unfold Spec.hex64 in H'. apply andb_true_iff in H' as [_ Hall].
    rewrite replace_0x_hex by assumption. apply hex64_accepted. exact H.
  - destruct s as [|c0 [|c1 body]]; try discriminate.
    apply andb_true_iff in H as [H Hbody]. apply andb_true_iff in H as [H0 H1].
    apply Ascii.eqb_eq in H0, H1. subst c0 c1. rename Hbody into H.
    unfold Config._is_valid_private_key. cbn [String.eqb].
    pose proof H as H'. unfold Spec.hex64 in H'. apply andb_true_iff in H' as [_ Hall].
    assert (Hclean : replace "0x" "" (String "0" (String "x" body)) = body).
    { assert (Hp : String.prefix "0x" (String "0" (String "x" body)) = true).
      { rewrite prefix_cons. destruct (ascii_dec "0" "0"); [|congruence].
        rewrite prefix_cons. destruct (ascii_dec "x" "x"); [destruct body; reflexivity | congruence]. }
      unfold replace.
      change (replace_from "0x" "" (String "0" (String "x" body)) 0)
        with (if String.prefix "0x" (String "0" (String "x" body))
              then replace_from "0x" "" body 0
              else String "0" (replace_from "0x" "" (String "x" body) 0)).
      rewrite Hp. apply replace_0x_hex. exact Hall. }
    rewrite Hclean. apply hex64_accepted. exact H.
Qed.

(** C7: the check of the code accepts a 66-character secret that has
    ["0x"] in the middle of 64 hexadecimal characters, which is not of the
    specified format (64 hexadecimal characters with an optional ["0x"]
    before them); explicit validation of a configuration holding that
    secret reports no error. *)
Theorem C7_private_key_with_inner_0x_accepted :
  let key := times "a" 32 ++ "0x" ++ times "a" 32 in
  String.length key = 66%nat
  /\ Spec.secret_pattern key = false
  /\ Config._is_valid_private_key key = true
  /\ Config.validate_errors (with_private_key sample_config (Some key)) = []
  /\ Config.validate (with_private_key sample_config (Some key)) = true.
Proof.
  cbv zeta. repeat split; vm_compute; reflexivity.
Qed.

(** The end anchor lets a secret of 63 hexadecimal characters and a line
    feed through as well. *)
Lemma private_key_with_trailing_newline_accepted :
  let key := times "a" 63 ++ String LF "" in
  Spec.secret_pattern key = false
  /\ Config._is_valid_private_key key = true.
Proof.
  cbv zeta. split; vm_compute; reflexivity.
Qed.

(** A secret that is present and fails the check of the code is a hard
    error of explicit validation. *)
Lemma validate_reports_invalid_private_key (config : Config.PolymarketConfig) (key : string) :
  Config.private_key config = Some key ->
  key <> "" ->
  Config._is_valid_private_key key = false ->
  In "POLYMARKET_PRIVATE_KEY has invalid format" (Config.validate_errors config)
  /\ Config.validate config = false.
Proof.
  intros Hkey Hne Hbad.
  assert (Hin : In "POLYMARKET_PRIVATE_KEY has invalid format"
                   (Config.validate_errors config)).
  { unfold Config.validate_errors. rewrite Hkey. cbn [Config.missing].
    destruct (String.eqb_spec key ""); [contradiction|].
    rewrite Hbad. cbn [negb]. apply in_or_app. left. left. reflexivity. }
  split; [exact Hin|].
  unfold Config.validate. destruct (Config.validate_errors config); [destruct Hin | reflexivity].
Qed.

End SecretFormat.

(* ================================================================= *)
(** ** Client initialization *)

Section Initialization.

Variable lib : ClobLibrary.

(** The session constructor call that [initialize_client] makes from [s]. *)
Let construction (s : state lib) : call :=
  let cfg := config (self s) in
  Call_ClobClient (Config.host cfg) (Config.private_key cfg) (Config.chain_id cfg)
    (Config.signature_type cfg) (Config.proxy_address cfg).

(** One run of the undecorated body: it always returns, it calls the
    session constructor once and first, it never sleeps, and it leaves
    the configuration and the limits alone. *)
Lemma initialize_client_body_runs (s : state lib) :
  exists (b : bool) (later : list call) (s' : state lib),
    initialize_client_body tt s = (Ret b, s')
    /\ calls s' = calls s ++ construction s :: later
    /\ forallb (fun c => negb (is_ClobClient c) && negb (is_sleep c)) later = true
    /\ config (self s') = config (self s)
    /\ _trading_limits (self s') = _trading_limits (self s)
    /\ _is_initialized (self s') = b
    /\ ready (self s') = b.
Proof.
  unfold initialize_client_body, try_except, bind, get, construction.
  unfold external at 1.
  destruct (new_ClobClient lib _ _ _ _ _ (world s)) as [[c|e] w1].
  - unfold set_client at 1, modify. cbn [self world calls config].
    unfold external at 1. cbn [self world calls].
    destruct (create_or_derive_api_creds lib c w1) as [[creds|e] w2].
    + unfold external at 1. cbn [self world calls].
      destruct (set_api_creds lib c creds w2) as [[[]|e] w3].
      * exists true, [Call_create_or_derive_api_creds; Call_set_api_creds].
        eexists. split; [reflexivity|]. cbn.
        rewrite <- !app_assoc. repeat split.
      * exists false, [Call_create_or_derive_api_creds; Call_set_api_creds].
        eexists. split; [reflexivity|]. cbn.
        rewrite <- !app_assoc. repeat split.
    + exists false, [Call_create_or_derive_api_creds].
      eexists. split; [reflexivity|]. cbn.
      rewrite <- !app_assoc. repeat split.
  - exists false, []. eexists. split; [reflexivity|]. cbn. repeat split.
Qed.

(** The body handles every exception itself, so the retry wrapper around
    it sees its first attempt return: the decorated function is the body,
    run once. *)
Lemma initialize_client_is_single_attempt (s : state lib) :
  initialize_client s = initialize_client_body tt s.
Proof.
  destruct (initialize_client_body_runs s) as (b & later & s' & Hrun & _).
  unfold initialize_client.
  apply retry_first_attempt_returns with (v := b).
  - unfold DEFAULT_MAX_RETRIES. lia.
  - rewrite Hrun. reflexivity.
Qed.

(** Whatever the library does, [initialize_client] returns a boolean,
    constructs the session exactly once and never sleeps; the engine is
    ready afterwards exactly when the answer is true. *)
Lemma initialize_client_constructs_once (s : state lib) :
  exists (b : bool),
    fst (initialize_client s) = Ret b
    /\ ready (self (snd (initialize_client s))) = b
    /\ List.length (filter is_ClobClient (calls_during (@initialize_client lib) s)) = 1%nat
    /\ filter is_sleep (calls_during (@initialize_client lib) s) = [].
Proof.
  destruct (initialize_client_body_runs s)
    as (b & later & s' & Hrun & Hcalls & Hlater & _ & _ & _ & Hready).
  exists b. unfold calls_during.
  rewrite initialize_client_is_single_attempt, Hrun. cbn [fst snd].
  rewrite Hcalls, skipn_own_length.
  repeat split; try assumption.
  - cbn. f_equal. clear Hcalls. induction later as [|c l IH]; [reflexivity|].
    cbn in Hlater. apply andb_true_iff in Hlater as [Hc Hl].
    apply andb_true_iff in Hc as [Hc _]. apply negb_true_iff in Hc.
    cbn. rewrite Hc. apply IH. exact Hl.
  - cbn. clear Hcalls. induction later as [|c l IH]; [reflexivity|].
    cbn in Hlater. apply andb_true_iff in Hlater as [Hc Hl].
    apply andb_true_iff in Hc as [_ Hc]. apply negb_true_iff in Hc.
    cbn. rewrite Hc. apply IH. exact Hl.
Qed.

End Initialization.

(** C4: with a session constructor that raises on every call,
    [initialize_client] returns false, leaves the engine not ready and
    does not raise, but it makes one attempt only: the constructor is
    called once and the wrapper never sleeps, where the claim has the
    attempt repeated up to three times. *)
Theorem C4_initialize_client_attempts_once :
  let s := constructed failing_library tt sample_config in
  fst (initialize_client s) = Ret false
  /\ ready (self (snd (initialize_client s))) = false
  /\ calls (snd (initialize_client s))
     = [Call_ClobClient (Config.host sample_config) (Config.private_key sample_config)
          (Config.chain_id sample_config) (Config.signature_type sample_config)
          (Config.proxy_address sample_config)]
  /\ List.length (filter is_ClobClient (calls (snd (initialize_client s)))) = 1%nat.
Proof.
  cbv zeta. repeat split; vm_compute; reflexivity.
Qed.

(* ================================================================= *)
(** ** The trading limits over the life of a trader *)

Section LimitsInvariant.
Local Open Scope Q_scope.

Variable lib : ClobLibrary.

Lemma place_order_keeps_self (token_id price size : value) (side : string)
      (s : state lib) :
  self (snd (_place_order token_id price size side s)) = self s.
Proof.
  destruct (place_order_runs token_id price size side s); cbn [snd]; congruence.
Qed.

Lemma get_order_status_keeps_state (order_id : string) (s : state lib) :
  snd (get_order_status order_id s) = s.
Proof.
  unfold get_order_status, bind, get. destruct (not_ready (self s)); reflexivity.
Qed.

Lemma cancel_order_keeps_state (order_id : string) (s : state lib) :
  snd (cancel_order order_id s) = s.
Proof.
  unfold cancel_order, bind, get. destruct (not_ready (self s)); reflexivity.
Qed.

(** No operation assigns [_trading_limits]. *)
Lemma perform_keeps_limits (op : operation) (s : state lib) :
  _trading_limits (self (perform op s)) = _trading_limits (self s).
Proof.
  destruct op as [|t p z|t p z|id|id]; cbn [perform].
  - rewrite initialize_client_is_single_attempt.
    destruct (initialize_client_body_runs s) as (b & later & s' & Hrun & _ & _ & _ & Hl & _).
    rewrite Hrun. exact Hl.
  - unfold place_buy_order. rewrite place_order_keeps_self. reflexivity.
  - unfold place_sell_order. rewrite place_order_keeps_self. reflexivity.
  - rewrite get_order_status_keeps_state. reflexivity.
  - rewrite cancel_order_keeps_state. reflexivity.
Qed.

Lemma perform_all_keeps_limits (ops : list operation) (s : state lib) :
  _trading_limits (self (perform_all ops s)) = _trading_limits (self s).
Proof.
  unfold perform_all. revert s.
  induction ops as [|op ops IH]; intro s; [reflexivity|].
  cbn [fold_left]. rewrite IH. apply perform_keeps_limits.
Qed.

(** Validation passes only when the size limit is positive. *)
Lemma validate_max_order_size_positive (config : Config.PolymarketConfig) :
  Config.validate config = true -> 0 < Config.max_order_size config.
Proof.
  unfold Config.validate, Config.validate_errors. intro H.
  destruct (le (Config.max_order_size config) 0) eqn:Hle.
  - exfalso. revert H.
    match goal with
    | |- context [?a ++ ?b ++ ?c] =>
        destruct (a ++ b ++ c) as [|x l] eqn:E; [|discriminate]
    end.
    apply app_eq_nil in E as [_ E]. apply app_eq_nil in E as [_ E]. discriminate.
  - apply le_false_iff. exact Hle.
Qed.

(** The limits are ordered exactly when the configured maximum reaches the
    fixed minimum. *)
Lemma limits_ordered_iff (config : Config.PolymarketConfig) :
  let limits := Config.get_trading_limits config in
  Limits.min_order_size limits <= Limits.max_order_size limits
  <-> 0.1 <= Config.max_order_size config.
Proof.
  cbn. reflexivity.
Qed.

(** The comparison validation makes on the size limit is false for a
    configuration that passes. *)
Lemma validate_checks_max_order_size (config : Config.PolymarketConfig) :
  Config.validate config = true -> le (Config.max_order_size config) 0 = false.
Proof.
  intro H. apply le_false_iff. apply validate_max_order_size_positive. exact H.
Qed.

(** C6 (amended): at all times after the trader is constructed from a
    configuration that passes validation, its trading limits are the ones
    computed from that configuration, and the comparison
    max_order_size <= 0 is false for them (so max_order_size > 0 whenever
    it is a number rather than NaN); every configuration for which
    max_order_size <= 0 is true fails validation; and
    min_order_size <= max_order_size is not checked: at all times it holds
    exactly when 0.1 <= max_order_size does for the configuration. *)
Theorem C6_validated_limits_stay_positive (config : Config.PolymarketConfig) :
  (Config.validate config = true ->
   forall (w : World lib) (ops : list operation),
     let limits := _trading_limits (self (perform_all ops (constructed lib w config))) in
     limits = Config.get_trading_limits config
     /\ le (Limits.max_order_size limits) 0 = false)
  /\ (le (Config.max_order_size config) 0 = true -> Config.validate config = false)
  /\ (forall (w : World lib) (ops : list operation),
        let limits := _trading_limits (self (perform_all ops (constructed lib w config))) in
        le (Limits.min_order_size limits) (Limits.max_order_size limits)
        = le 0.1 (Config.max_order_size config)).
Proof.
  split; [|split].
  - intros Hvalid w ops limits. subst limits.
    rewrite perform_all_keeps_limits. cbn [constructed self __init__ _trading_limits].
    split; [reflexivity|]. apply validate_checks_max_order_size. exact Hvalid.
  - intro Hle. destruct (Config.validate config) eqn:Hvalid; [|reflexivity].
    apply validate_checks_max_order_size in Hvalid. congruence.
  - intros w ops limits. subst limits.
    rewrite perform_all_keeps_limits. reflexivity.
Qed.

End LimitsInvariant.

(** C6, as stated, fails: a configuration whose size limit is positive and
    below the fixed minimum order size passes validation, and the trader
    constructed from it has min_order_size above max_order_size. *)
Lemma C6_validated_limits_can_be_disordered :
  let config := with_max_order_size sample_config 0.05 in
  let limits := _trading_limits (__init__ working_library config) in
  Config.validate config = true
  /\ (0 < Limits.max_order_size limits)%Q
  /\ ~ (Limits.min_order_size limits <= Limits.max_order_size limits)%Q.
Proof.
  cbv zeta. repeat split; try (vm_compute; congruence).
Qed.

Lemma C6_validated_limits_stay_positive_witness :
  le (Limits.max_order_size
        (_trading_limits
           (self (perform_all
                    [Op_initialize_client;
                     Op_place_buy_order (Str "token123") (Num 0.6) (Num 10.0);
                     Op_cancel_order "123"]
                    (constructed working_library tt sample_config))))) 0 = false
  /\ Config.validate (with_max_order_size sample_config 0) = false.
Proof.
  split.
  - apply (proj1 (@C6_validated_limits_stay_positive working_library sample_config)
             ltac:(vm_compute; reflexivity) tt).
  - apply (proj1 (proj2 (@C6_validated_limits_stay_positive working_library
                           (with_max_order_size sample_config 0)))).
    vm_compute. reflexivity.
Defined.

(* ================================================================= *)
(** ** Scenarios of the test suite and of the specification *)

Section Scenarios.
Local Open Scope string_scope.

(** test_validate_success *)
Example validate_well_formed : Config.validate sample_config = true.
Proof. reflexivity. Qed.

(** test_validate_invalid_private_key *)
Example validate_invalid_private_key :
  Config.validate (with_private_key sample_config (Some "invalid_key")) = false.
Proof. reflexivity. Qed.

Example validate_missing_private_key :
  Config.validate_errors (with_private_key sample_config None)
  = ["POLYMARKET_PRIVATE_KEY is required"].
Proof. reflexivity. Qed.

(** test_trading_limits *)
Example trading_limits_of_500 :
  Config.get_trading_limits (with_max_order_size sample_config 500.0)
  = {| Limits.max_order_size := 500.0;
       Limits.min_price := 0.01;
       Limits.min_order_size := 0.1 |}.
Proof. reflexivity. Qed.

(** Token identifiers: accepted, empty, with a space, with a slash. *)
Example token_ids :
  _validate_token_id (Str "token123") = true
  /\ _validate_token_id (Str "") = false
  /\ _validate_token_id (Str "a b") = false
  /\ _validate_token_id (Str "a/b") = false
  /\ _validate_token_id NoneV = false.
Proof. repeat split. Qed.

(** The scenario of the specification under the default limits. *)
Example default_limits_scenario :
  let limits := Config.get_trading_limits sample_config in
  _validate_order_params limits (Num 0.60) (Num 10.0) BUY = Ret tt
  /\ _validate_order_params limits (Num 0.0) (Num 10.0) BUY
     = Raise (ValidationError PriceNotPositive)
  /\ _validate_order_params limits (Num 0.60) (Num 0.0) BUY
     = Raise (ValidationError SizeNotPositive)
  /\ _validate_order_params limits (Num 0.60) (Num 2000) BUY
     = Raise (ValidationError (SizeExceedsMaximum 2000 1000.0))
  /\ _validate_order_params limits (Num 1.5) (Num 10.0) BUY
     = Raise (ValidationError (PriceExceedsMaximum 1.5 1.0)).
Proof. cbv zeta. repeat split. Qed.

(** test_place_buy_order_invalid_price, test_place_buy_order_invalid_size *)
Example place_buy_order_invalid_parameters :
  fst (place_buy_order (Str "token123") (Num 0.0) (Num 10.0) ready_state) = Ret false
  /\ fst (place_buy_order (Str "token123") (Num 1.5) (Num 10.0) ready_state) = Ret false
  /\ fst (place_buy_order (Str "token123") (Num 0.5) (Num 0.0) ready_state) = Ret false
  /\ fst (place_buy_order (Str "token123") (Num 0.5) (Num (-1.0)) ready_state) = Ret false.
Proof. repeat split. Qed.

(** test_place_buy_order_success *)
Example place_buy_order_success :
  place_buy_order (Str "token123") (Num 0.6) (Num 10.0) ready_state
  = (Ret true,
     {| self := self ready_state;
        world := world ready_state;
        calls := [Call_create_order
                    {| Trader.price := Num 0.6; Trader.size := Num 10.0;
                       Trader.side := "BUY"; Trader.token_id := Str "token123" |};
                  Call_post_order GTC] |}).
Proof. reflexivity. Qed.

(** test_initialize_client_success *)
Example initialize_client_success :
  let run := initialize_client (constructed working_library tt sample_config) in
  fst run = Ret true
  /\ ready (self (snd run)) = true
  /\ calls (snd run)
     = [Call_ClobClient (Config.host sample_config) (Config.private_key sample_config)
          (Config.chain_id sample_config) (Config.signature_type sample_config)
          (Config.proxy_address sample_config);
        Call_create_or_derive_api_creds;
        Call_set_api_creds].
Proof. cbv zeta. repeat split. Qed.

(** The sleeps of three failed attempts out of four, with the default
    delay. *)
Example backoff_of_three_failures :
  slept (snd (retry_on_failure mock_sleep 4 DEFAULT_RETRY_DELAY
                (mock (fun i => if (i <? 3)%nat
                                then Raise (OtherException "Connection failed")
                                else Ret i)) tt fresh))
  = backoff DEFAULT_RETRY_DELAY 0 3.
Proof. reflexivity. Qed.

(** A negative delay makes the first sleep raise, and that exception
    leaves the wrapper after one call of the operation. *)
Example negative_delay_raises :
  retry_on_failure mock_sleep 3 (-1.0) (mock always_failing) tt fresh
  = (Raise (ValueError "sleep length must be non-negative"),
     {| call_count := 1; slept := [] |}).
Proof. reflexivity. Qed.

End Scenarios.

(* ================================================================= *)
(** * Further properties of the code *)

Import Samples.

(* ================================================================= *)
(** ** The numeric checks *)

Section NumericChecks.
Local Open Scope Q_scope.

Variable limits : Limits.TradingLimits.

(** Once the six range checks have passed, the product of price and size
    is below the cap. *)
Lemma total_cost_within_cap (p s : Q) :
  0 < p -> p <= MAX_PRICE -> 0 < s -> s <= Limits.max_order_size limits ->
  p * s <= MAX_PRICE * Limits.max_order_size limits.
Proof.
  intros Hp Hp1 Hs Hsm.
  apply Qle_trans with (MAX_PRICE * s).
  - apply Qmult_le_compat_r; [exact Hp1 | apply Qlt_le_weak; exact Hs].
  - rewrite (Qmult_comm MAX_PRICE s), (Qmult_comm MAX_PRICE (Limits.max_order_size limits)).
    apply Qmult_le_compat_r; [exact Hsm | unfold MAX_PRICE; lra].
Qed.

(** Acceptance by the numeric checks, as six range conditions. *)
Lemma numeric_checks_accept_ranges (price size : value) (side : string) :
  _validate_order_params limits price size side = Ret tt
  <-> exists p s,
        price = Num p /\ size = Num s
        /\ 0 < p /\ Limits.min_price limits <= p /\ p <= 1.0
        /\ 0 < s /\ Limits.min_order_size limits <= s
        /\ s <= Limits.max_order_size limits.
Proof.
  split.
  - intro H.
    destruct (validate_order_params_number limits price size side H) as (p & s & -> & ->).
    apply validate_order_params_rejects in H.
    destruct H as (Hp & Hs & Hmin & Hmax & Hsmin & Hsmax & _).
    exists p, s. repeat split; assumption.
  - intros (p & s & -> & -> & Hp & Hmin & Hmax & Hs & Hsmin & Hsmax).
    apply validate_order_params_accepts.
    unfold within_limits. repeat split; try assumption.
    apply total_cost_within_cap; assumption.
Qed.


(** The total-cost check never fires: no parameters make
    [_validate_order_params] report that the total cost exceeds the
    safety limit. *)
Theorem total_cost_failure_never_reported
        (price size : value) (side : string) (total_cost max_total : Q) :
  _validate_order_params limits price size side
  <> Raise (ValidationError (TotalCostExceedsLimit total_cost max_total)).
Proof.
  destruct price as [p| |]; try discriminate.
  unfold _validate_order_params.
  destruct (le p 0) eqn:E1; [discriminate|].
  destruct size as [s| |]; try discriminate.
  destruct (le s 0) eqn:E2; [discriminate|].
  destruct (lt p (Limits.min_price limits)) eqn:E3; [discriminate|].
  unfold gt.
  destruct (lt MAX_PRICE p) eqn:E4; [discriminate|].
  destruct (lt s (Limits.min_order_size limits)) eqn:E5; [discriminate|].
  destruct (lt (Limits.max_order_size limits) s) eqn:E6; [discriminate|].
  apply le_false_iff in E1, E2. apply lt_false_iff in E4, E6.
  pose proof (total_cost_within_cap E1 E4 E2 E6) as Hcap.
  apply lt_false_iff in Hcap. rewrite Hcap. discriminate.
Qed.

(** The first failing check decides the error: a price that is not a
    positive number is reported as such whatever the size and the limits
    are, and with a positive price a size that is not a positive number is
    reported before any range is looked at. *)
Theorem validate_order_params_first_failure (p : Q) (size : value) (side : string) :
  (p <= 0 ->
   _validate_order_params limits (Num p) size side
   = Raise (ValidationError PriceNotPositive))
  /\ (0 < p ->
      (forall s, size = Num s -> s <= 0) ->
      _validate_order_params limits (Num p) size side
      = Raise (ValidationError SizeNotPositive)).
Proof.
  split.
  - intro Hp. apply le_iff in Hp. unfold _validate_order_params. rewrite Hp. reflexivity.
  - intros Hp Hsize. apply le_false_iff in Hp.
    unfold _validate_order_params. rewrite Hp.
    destruct size as [s| |]; try reflexivity.
    specialize (Hsize s eq_refl). apply le_iff in Hsize. rewrite Hsize. reflexivity.
Qed.

End NumericChecks.

(** With a configured maximum order size below the fixed minimum order
    size 0.1, the limits of the configuration admit no order whose size is
    a number (a size of NaN, for which every comparison is false, is
    outside the values of the model). *)
Theorem small_max_order_size_rejects_every_order
        (config : Config.PolymarketConfig) (price size : value) (side : string) :
  (Config.max_order_size config < 0.1)%Q ->
  _validate_order_params (Config.get_trading_limits config) price size side <> Ret tt.
Proof.
  intros Hsmall H.
  apply numeric_checks_accept_ranges in H.
  destruct H as (p & s & _ & _ & _ & _ & _ & _ & Hmin & Hmax).
  cbn in Hmin, Hmax. lra.
Qed.


Lemma validate_order_params_first_failure_witness :
  _validate_order_params (Config.get_trading_limits sample_config)
    (Num (-1)) (Str "ten") BUY = Raise (ValidationError PriceNotPositive)
  /\ _validate_order_params (Config.get_trading_limits sample_config)
       (Num 0.5) NoneV BUY = Raise (ValidationError SizeNotPositive).
Proof.
  split.
  - apply (proj1 (validate_order_params_first_failure
                    (Config.get_trading_limits sample_config) (-1) (Str "ten") BUY)).
    vm_compute. congruence.
  - apply (proj2 (validate_order_params_first_failure
                    (Config.get_trading_limits sample_config) 0.5 NoneV BUY)).
    + vm_compute. reflexivity.
    + intros s Hs. discriminate.
Defined.

Lemma small_max_order_size_rejects_every_order_witness :
  _validate_order_params
    (Config.get_trading_limits (with_max_order_size sample_config 0.05))
    (Num 0.5) (Num 0.05) BUY <> Ret tt.
Proof.
  apply (@small_max_order_size_rejects_every_order
           (with_max_order_size sample_config 0.05) (Num 0.5) (Num 0.05) BUY).
  vm_compute. reflexivity.
Defined.

(* ================================================================= *)
(** ** Token identifiers *)

(** The token identifiers [_validate_token_id] accepts are the strings
    made of one or more characters of [a-zA-Z0-9_-], alone or followed by
    one line feed; everything that is not a string is rejected. *)
Theorem validate_token_id_accepts_iff (token_id : value) :
  _validate_token_id token_id = true
  <-> exists t,
        t <> EmptyString /\ all_in token_char t = true
        /\ (token_id = Str t \/ token_id = Str (t ++ String LF "")).
Proof.
  unfold _validate_token_id. destruct token_id as [q|s|].
  - cbn. rewrite orb_true_r. split; [discriminate|].
    intros (t & _ & _ & [H | H]); discriminate.
  - cbn [truthy is_str negb orb].
    destruct (String.eqb_spec s EmptyString) as [->|Hne]; cbn [negb orb].
    + split; [discriminate|].
      intros (t & Hne & _ & [H | H]); injection H as H.
      * congruence.
      * destruct t; discriminate.
    + rewrite match_class_plus_dollar_spec. split.
      * intros (t & Ht & Hall & Hs). exists t. repeat split; try assumption.
        destruct Hs as [-> | ->]; auto.
      * intros (t & Ht & Hall & Hs). exists t. repeat split; try assumption.
        destruct Hs as [H | H]; injection H as ->; auto.
  - cbn. split; [discriminate|].
    intros (t & _ & _ & [H | H]); discriminate.
Qed.

(* ================================================================= *)
(** ** More on the retry wrapper *)

Section RetrySchedule.
Local Open Scope Q_scope.

Variable A : Type.
Variable side_effect : nat -> result A.
Variables (N : Z) (delay : Q).

(** When every attempt fails the wrapper sleeps after each attempt but the
    last: N-1 sleeps of D * 2^0, ..., D * 2^(N-2), and none before the
    exception is raised, as long as each of these backoffs can be
    computed and slept. *)
Theorem retry_exhaustion_schedule :
  (1 <= N)%Z ->
  (forall i : nat, (Z.of_nat i < N - 1)%Z -> sleepable delay i) ->
  (forall i, is_raise (side_effect i) = true) ->
  slept (snd (retry_on_failure mock_sleep N delay (mock side_effect) tt fresh))
  = backoff delay 0 (Z.to_nat N - 1).
Proof.
  intros HN Hd Hfail. unfold retry_on_failure, wrapper, range.
  destruct (Z.to_nat N) as [|n] eqn:En; [lia|].
  destruct (@loop_exhausts A side_effect N delay Hd Hfail n 0%nat None fresh)
    as (e & _ & Hrun); [simpl; lia | reflexivity |].
  rewrite Hrun. cbn [snd slept fresh app].
  replace (Datatypes.S n - 1)%nat with n by lia. reflexivity.
Qed.

Lemma backoff_total (a n : nat) :
  total_delay (backoff delay a n)
  == delay * (inject_Z (2 ^ Z.of_nat (a + n)) - inject_Z (2 ^ Z.of_nat a)).
Proof.
  revert a. induction n as [|n IH]; intro a.
  - rewrite Nat.add_0_r. cbn. ring.
  - unfold backoff in *. cbn [seq map total_delay fold_right].
    fold (total_delay (map (fun i => delay * inject_Z (2 ^ Z.of_nat i))
                           (seq (Datatypes.S a) n))).
    rewrite IH.
    replace (a + Datatypes.S n)%nat with (Datatypes.S a + n)%nat by lia.
    assert (H2 : inject_Z (2 ^ Z.of_nat (Datatypes.S a))
                 == 2 * inject_Z (2 ^ Z.of_nat a)).
    { rewrite Nat2Z.inj_succ, Z.pow_succ_r by lia.
      rewrite inject_Z_mult. reflexivity. }
    rewrite H2. ring.
Qed.

(** The time slept before a success at the (k+1)-th attempt is
    D * (2^k - 1), as long as each of the k backoffs can be computed and
    slept. *)
Theorem retry_total_backoff (k : nat) (v : A) :
  (Z.of_nat k < N)%Z ->
  (forall i, (i < k)%nat -> sleepable delay i) ->
  (forall i, (i < k)%nat -> is_raise (side_effect i) = true) ->
  side_effect k = Ret v ->
  total_delay
    (slept (snd (retry_on_failure mock_sleep N delay (mock side_effect) tt fresh)))
  == delay * (inject_Z (2 ^ Z.of_nat k) - 1).
Proof.
  intros Hk Hd Hfail Hret. unfold retry_on_failure, wrapper, range.
  rewrite (@loop_returns A side_effect N delay k v Hd Hfail Hret
             (Z.to_nat N) 0%nat None fresh) by (simpl; lia).
  cbn [snd slept fresh app]. rewrite Nat.sub_0_r, backoff_total.
  cbn. ring.
Qed.

(** With a negative base delay (of at most 9 * 10^9 seconds in size) the
    first backoff is a negative sleep: when the first attempt fails and
    another attempt is due, the wrapper raises the [ValueError] of
    [time.sleep] after that single call, and the exception of the
    operation is lost. *)
Theorem retry_negative_delay_raises (e : exn) :
  (2 <= N)%Z -> delay < 0 -> -9000000000 <= delay ->
  side_effect 0%nat = Raise e ->
  retry_on_failure mock_sleep N delay (mock side_effect) tt fresh
  = (Raise (ValueError "sleep length must be non-negative"),
     {| call_count := 1; slept := [] |}).
Proof.
  intros HN Hd Hlow He. unfold retry_on_failure, wrapper, range.
  destruct (Z.to_nat N) as [|n] eqn:En; [lia|].
  cbn [seq map retry_loop]. unfold try_except, mock at 1. cbn [call_count fresh].
  rewrite He. cbn [dispatch is_Exception].
  assert (Hlt : (Z.of_nat 0 <? N - 1)%Z = true) by (apply Z.ltb_lt; lia).
  rewrite Hlt. unfold bind at 1, lift.
  change (exponential_delay delay (Z.of_nat 0)) with (@Ret exn Q (delay * inject_Z 1)).
  unfold bind at 1, mock_sleep, bind, lift, check_sleep_length.
  assert (Hfits : sleep_length_fits (delay * inject_Z 1) = true).
  { unfold sleep_length_fits, SLEEP_NS_MAX.
    change (inject_Z (- 2 ^ 63)) with (-9223372036854775808 # 1).
    change (inject_Z (2 ^ 63)) with (9223372036854775808 # 1).
    change (inject_Z 1) with 1.
    apply andb_true_iff. split; apply le_iff; lra. }
  assert (Hneg : lt (delay * inject_Z 1) 0 = true).
  { apply lt_iff. change (inject_Z 1) with 1. lra. }
  rewrite Hfits, Hneg. reflexivity.
Qed.

End RetrySchedule.

(** An operation that returns at its first call goes through the wrapper
    unchanged, for every state, argument, attempt count N >= 1 and delay:
    same outcome, same final state, and the sleep function plays no part. *)
Theorem retry_transparent_on_first_success
        (S Args A : Type) (sleep sleep' : Q -> M S unit) (N : Z) (delay delay' : Q)
        (func : Args -> M S A) (args : Args) (s : S) (v : A) :
  (1 <= N)%Z ->
  fst (func args s) = Ret v ->
  retry_on_failure sleep N delay func args s = func args s
  /\ retry_on_failure sleep' N delay' func args s = func args s.
Proof.
  intros HN Hv. split; apply retry_first_attempt_returns with (v := v); assumption.
Qed.

Lemma retry_backoff_schedule_witness :
  slept (snd (retry_on_failure mock_sleep 3 1.0 (mock flaky) tt fresh))
  = backoff 1.0 0 2.
Proof.
  apply (@retry_backoff_schedule nat flaky 3 1.0 2%nat 7%nat).
  - lia.
  - intros i Hi. apply default_delay_sleepable. lia.
  - intros i Hi. destruct i as [|[|i]]; [reflexivity | reflexivity | lia].
  - reflexivity.
Defined.

Lemma retry_exhaustion_schedule_witness :
  slept (snd (retry_on_failure mock_sleep 3 1.0 (mock always_failing) tt fresh))
  = backoff 1.0 0 2.
Proof.
  apply (@retry_exhaustion_schedule nat always_failing 3 1.0).
  - lia.
  - intros i Hi. apply default_delay_sleepable. lia.
  - intro i. reflexivity.
Defined.

Lemma retry_total_backoff_witness :
  (total_delay (slept (snd (retry_on_failure mock_sleep 3 1.0 (mock flaky) tt fresh)))
   == 1.0 * (inject_Z (2 ^ Z.of_nat 2) - 1))%Q.
Proof.
  apply (@retry_total_backoff nat flaky 3 1.0 2%nat 7%nat).
  - lia.
  - intros i Hi. apply default_delay_sleepable. lia.
  - intros i Hi. destruct i as [|[|i]]; [reflexivity | reflexivity | lia].
  - reflexivity.
Defined.

Lemma retry_negative_delay_raises_witness :
  retry_on_failure mock_sleep 3 (-1.0) (mock always_failing) tt fresh
  = (Raise (ValueError "sleep length must be non-negative"),
     {| call_count := 1; slept := [] |}).
Proof.
  apply (@retry_negative_delay_raises nat always_failing 3 (-1.0)
           (OtherException (times "I" 1))).
  - lia.
  - vm_compute. reflexivity.
  - vm_compute. congruence.
  - reflexivity.
Defined.

Lemma retry_transparent_on_first_success_witness :
  retry_on_failure mock_sleep 3 1.0 (mock (fun _ => Ret 7%nat)) tt fresh
  = (Ret 7%nat, {| call_count := 1; slept := [] |}).
Proof.
  apply (proj1 (@retry_transparent_on_first_success mock_state unit nat
                  mock_sleep mock_sleep 3 1.0 1.0 (mock (fun _ => Ret 7%nat)) tt fresh
                  7%nat ltac:(lia) ltac:(reflexivity))).
Defined.

(* ================================================================= *)
(** ** More on the execution engine *)

Section EngineRuns.

Variable lib : ClobLibrary.

(** [_place_order] on a ready engine, written out. *)
Lemma place_order_ready_unfold
      (token_id price size : value) (side : string) (s : state lib)
      (c : ClobClient lib) :
  ready (self s) = true ->
  client (self s) = Some c ->
  let order_args := {| Trader.price := price; Trader.size := size;
                       Trader.side := side; Trader.token_id := token_id |} in
  _place_order token_id price size side s
  = if negb (_validate_token_id token_id) then (Ret false, s)
    else
      match _validate_order_params (_trading_limits (self s)) price size side with
      | Raise _ => (Ret false, s)
      | Ret _ =>
          match create_order lib c order_args (world s) with
          | (Raise _, w1) =>
              (Ret false,
               {| self := self s; world := w1;
                  calls := calls s ++ [Call_create_order order_args] |})
          | (Ret signed_order, w1) =>
              match post_order lib c signed_order GTC w1 with
              | (Raise _, w2) =>
                  (Ret false,
                   {| self := self s; world := w2;
                      calls := (calls s ++ [Call_create_order order_args])
                               ++ [Call_post_order GTC] |})
              | (Ret _, w2) =>
                  (Ret true,
                   {| self := self s; world := w2;
                      calls := (calls s ++ [Call_create_order order_args])
                               ++ [Call_post_order GTC] |})
              end
          end
      end.
Proof.
  intros Hready Hc order_args. subst order_args.
  unfold _place_order, bind, get.
  rewrite not_ready_ready, Hready, Hc. cbn [negb].
  unfold try_except, bind.
  destruct (_validate_token_id token_id); cbn [negb raise ret].
  - unfold lift.
    destruct (_validate_order_params (_trading_limits (self s)) price size side)
      as [[]|why].
    + unfold external at 1.
      destruct (create_order lib c _ (world s)) as [[signed|e] w1].
      * unfold external. cbn [world self calls].
        destruct (post_order lib c signed GTC w1) as [[response|e] w2].
        -- reflexivity.
        -- apply place_order_clauses_answer_false.
      * apply place_order_clauses_answer_false.
    + apply place_order_clauses_answer_false.
  - apply place_order_clauses_answer_false.
Qed.

(** On a ready engine an order placement never raises: whatever the
    arguments are and whatever the library does, the caller gets a
    boolean, and the trader object is as before. *)
Theorem place_order_ready_returns_boolean
        (token_id price size : value) (side : string) (s : state lib) :
  ready (self s) = true ->
  exists b : bool,
    fst (_place_order token_id price size side s) = Ret b
    /\ self (snd (_place_order token_id price size side s)) = self s.
Proof.
  intro Hready.
  destruct (ready_has_client _ Hready) as (c & Hc & _).
  rewrite (place_order_ready_unfold token_id price size side s Hready Hc).
  destruct (_validate_token_id token_id); cbn [negb];
    [|eexists; split; reflexivity].
  destruct (_validate_order_params _ price size side);
    [|eexists; split; reflexivity].
  destruct (create_order lib c _ (world s)) as [[signed|e] w1];
    [|eexists; split; reflexivity].
  destruct (post_order lib c signed GTC w1) as [[response|e] w2];
    eexists; split; reflexivity.
Qed.

(** On a ready engine the answer is true only when the token id and the
    numeric parameters are valid and both library calls, signing and then
    submission of the signed order, have returned. *)
Theorem place_order_true_only_if
        (token_id price size : value) (side : string) (s : state lib)
        (c : ClobClient lib) :
  ready (self s) = true ->
  client (self s) = Some c ->
  fst (_place_order token_id price size side s) = Ret true ->
  let order_args := {| Trader.price := price; Trader.size := size;
                       Trader.side := side; Trader.token_id := token_id |} in
  _validate_token_id token_id = true
  /\ _validate_order_params (_trading_limits (self s)) price size side = Ret tt
  /\ exists signed_order w1 response w2,
       create_order lib c order_args (world s) = (Ret signed_order, w1)
       /\ post_order lib c signed_order GTC w1 = (Ret response, w2).
Proof.
  intros Hready Hc.
  rewrite (place_order_ready_unfold token_id price size side s Hready Hc).
  intros Htrue order_args. revert Htrue. fold order_args.
  destruct (_validate_token_id token_id); cbn [negb]; [|discriminate].
  destruct (_validate_order_params _ price size side) as [[]|why]; [|discriminate].
  destruct (create_order lib c order_args (world s)) as [[signed|e] w1];
    [|discriminate].
  destruct (post_order lib c signed GTC w1) as [[response|e] w2] eqn:Hpost;
    [|discriminate].
  intros _. repeat split.
  exists signed, w1, response, w2. split; [reflexivity | exact Hpost].
Qed.

(** A request that fails validation is answered false with nothing done:
    the state, the world and the call log are as before. *)
Theorem place_order_invalid_leaves_state
        (token_id price size : value) (side : string) (s : state lib) :
  ready (self s) = true ->
  _validate_token_id token_id = false
  \/ _validate_order_params (_trading_limits (self s)) price size side <> Ret tt ->
  _place_order token_id price size side s = (Ret false, s).
Proof.
  intros Hready Hinvalid.
  destruct (ready_has_client _ Hready) as (c & Hc & _).
  rewrite (place_order_ready_unfold token_id price size side s Hready Hc).
  destruct (_validate_token_id token_id); cbn [negb]; [|reflexivity].
  destruct Hinvalid as [H | H]; [discriminate|].
  destruct (_validate_order_params _ price size side) as [[]|why];
    [congruence | reflexivity].
Qed.

(** When signing raises, the order is not submitted: [create_order] is the
    only call made, and the answer is false. *)
Theorem place_order_signing_failure_skips_submission
        (token_id price size : value) (side : string) (s : state lib)
        (c : ClobClient lib) (e : exn) (w1 : World lib) :
  ready (self s) = true ->
  client (self s) = Some c ->
  _validate_token_id token_id = true ->
  _validate_order_params (_trading_limits (self s)) price size side = Ret tt ->
  let order_args := {| Trader.price := price; Trader.size := size;
                       Trader.side := side; Trader.token_id := token_id |} in
  create_order lib c order_args (world s) = (Raise e, w1) ->
  fst (_place_order token_id price size side s) = Ret false
  /\ calls_during (_place_order token_id price size side) s
     = [Call_create_order order_args]
  /\ world (snd (_place_order token_id price size side s)) = w1.
Proof.
  intros Hready Hc Htok Hpar order_args Hcreate.
  unfold calls_during.
  rewrite (place_order_ready_unfold token_id price size side s Hready Hc).
  fold order_args. rewrite Htok, Hpar, Hcreate. cbn.
  repeat split. apply skipn_own_length.
Qed.

(** When submission raises after a successful signing, whatever the
    exception is, the answer is false and nothing is raised; both calls
    are in the log. *)
Theorem place_order_submission_failure_returns_false
        (token_id price size : value) (side : string) (s : state lib)
        (c : ClobClient lib) (signed_order : SignedOrder lib) (e : exn)
        (w1 w2 : World lib) :
  ready (self s) = true ->
  client (self s) = Some c ->
  _validate_token_id token_id = true ->
  _validate_order_params (_trading_limits (self s)) price size side = Ret tt ->
  let order_args := {| Trader.price := price; Trader.size := size;
                       Trader.side := side; Trader.token_id := token_id |} in
  create_order lib c order_args (world s) = (Ret signed_order, w1) ->
  post_order lib c signed_order GTC w1 = (Raise e, w2) ->
  fst (_place_order token_id price size side s) = Ret false
  /\ calls_during (_place_order token_id price size side) s
     = [Call_create_order order_args; Call_post_order GTC].
Proof.
  intros Hready Hc Htok Hpar order_args Hcreate Hpost.
  unfold calls_during.
  rewrite (place_order_ready_unfold token_id price size side s Hready Hc).
  fold order_args. rewrite Htok, Hpar, Hcreate, Hpost. cbn.
  split; [reflexivity|]. rewrite <- app_assoc. apply skipn_own_length.
Qed.

End EngineRuns.

Lemma place_order_ready_returns_boolean_witness :
  exists b : bool,
    fst (_place_order (Str "a b") (Num 0.6) (Num 10.0) BUY ready_state) = Ret b.
Proof.
  destruct (@place_order_ready_returns_boolean working_library
              (Str "a b") (Num 0.6) (Num 10.0) BUY ready_state ltac:(reflexivity))
    as (b & Hb & _).
  exists b. exact Hb.
Defined.

Lemma place_order_true_only_if_witness :
  _validate_token_id (Str "token123") = true
  /\ _validate_order_params (_trading_limits (self ready_state))
       (Num 0.6) (Num 10.0) BUY = Ret tt.
Proof.
  destruct (@place_order_true_only_if working_library
              (Str "token123") (Num 0.6) (Num 10.0) BUY ready_state tt
              ltac:(reflexivity) ltac:(reflexivity) ltac:(reflexivity))
    as (Ht & Hp & _).
  split; assumption.
Defined.

Lemma place_order_invalid_leaves_state_witness :
  _place_order (Str "token123") (Num 1.5) (Num 10.0) BUY ready_state
  = (Ret false, ready_state).
Proof.
  apply (@place_order_invalid_leaves_state working_library
           (Str "token123") (Num 1.5) (Num 10.0) BUY ready_state).
  - reflexivity.
  - right. vm_compute. discriminate.
Defined.

Lemma place_order_signing_failure_skips_submission_witness :
  fst (_place_order (Str "token123") (Num 0.6) (Num 10.0) BUY
         (ready_with no_signing_library tt tt)) = Ret false
  /\ calls_during (_place_order (Str "token123") (Num 0.6) (Num 10.0) BUY)
       (ready_with no_signing_library tt tt)
     = [Call_create_order
          {| Trader.price := Num 0.6; Trader.size := Num 10.0;
             Trader.side := BUY; Trader.token_id := Str "token123" |}].
Proof.
  destruct (@place_order_signing_failure_skips_submission no_signing_library
              (Str "token123") (Num 0.6) (Num 10.0) BUY
              (ready_with no_signing_library tt tt) tt
              (OtherException "Order failed") tt
              ltac:(reflexivity) ltac:(reflexivity) ltac:(reflexivity)
              ltac:(reflexivity) ltac:(reflexivity)) as (Hf & Hcalls & _).
  split; assumption.
Defined.

Lemma place_order_submission_failure_returns_false_witness :
  fst (_place_order (Str "token123") (Num 0.6) (Num 10.0) SELL
         (ready_with no_submission_library tt tt)) = Ret false.
Proof.
  apply (@place_order_submission_failure_returns_false no_submission_library
           (Str "token123") (Num 0.6) (Num 10.0) SELL
           (ready_with no_submission_library tt tt) tt
           {| Trader.price := Num 0.6; Trader.size := Num 10.0;
              Trader.side := SELL; Trader.token_id := Str "token123" |}
           (PolyApiException "Bad request") tt tt
           ltac:(reflexivity) ltac:(reflexivity) ltac:(reflexivity)
           ltac:(reflexivity) ltac:(reflexivity) ltac:(reflexivity)).
Defined.

Lemma status_and_cancel_not_ready_witness :
  get_order_status "123" (constructed working_library tt sample_config)
  = (Raise (TradingConnectionError "Client not initialized"),
     constructed working_library tt sample_config)
  /\ cancel_order "123" (constructed working_library tt sample_config)
     = (Raise (TradingConnectionError "Client not initialized"),
        constructed working_library tt sample_config).
Proof.
  apply (@status_and_cancel_not_ready working_library "123"
           (constructed working_library tt sample_config)).
  reflexivity.
Defined.

(* ================================================================= *)
(** ** More on client initialization *)

Section InitializationRuns.

Variable lib : ClobLibrary.

(** The trader object with two attributes assigned. *)
Let assigned (t : PolymarketTrader lib) (c : option (ClobClient lib)) (b : bool)
  : PolymarketTrader lib :=
  {| config := config t; client := c;
     _trading_limits := _trading_limits t; _is_initialized := b |}.

(** The arguments of the session constructor. *)
Let construction (s : state lib) : call :=
  let cfg := config (self s) in
  Call_ClobClient (Config.host cfg) (Config.private_key cfg) (Config.chain_id cfg)
    (Config.signature_type cfg) (Config.proxy_address cfg).

(** [initialize_client], written out. *)
Lemma initialize_client_unfold (s : state lib) :
  let cfg := config (self s) in
  initialize_client s
  = match new_ClobClient lib (Config.host cfg) (Config.private_key cfg)
            (Config.chain_id cfg) (Config.signature_type cfg)
            (Config.proxy_address cfg) (world s) with
    | (Raise _, w1) =>
        (Ret false,
         {| self := assigned (self s) (client (self s)) false; world := w1;
            calls := calls s ++ [construction s] |})
    | (Ret c, w1) =>
        match create_or_derive_api_creds lib c w1 with
        | (Raise _, w2) =>
            (Ret false,
             {| self := assigned (self s) (Some c) false; world := w2;
                calls := (calls s ++ [construction s])
                         ++ [Call_create_or_derive_api_creds] |})
        | (Ret api_creds, w2) =>
            match set_api_creds lib c api_creds w2 with
            | (Raise _, w3) =>
                (Ret false,
                 {| self := assigned (self s) (Some c) false; world := w3;
                    calls := ((calls s ++ [construction s])
                              ++ [Call_create_or_derive_api_creds])
                             ++ [Call_set_api_creds] |})
            | (Ret _, w3) =>
                (Ret true,
                 {| self := assigned (self s) (Some c) true; world := w3;
                    calls := ((calls s ++ [construction s])
                              ++ [Call_create_or_derive_api_creds])
                             ++ [Call_set_api_creds] |})
            end
        end
    end.
Proof.
  intro cfg. subst cfg. rewrite initialize_client_is_single_attempt.
  unfold initialize_client_body, try_except, bind, get, construction, assigned.
  unfold external at 1.
  destruct (new_ClobClient lib _ _ _ _ _ (world s)) as [[c|e] w1]; [|reflexivity].
  unfold set_client at 1, modify. cbn [self world calls config].
  unfold external at 1. cbn [self world calls].
  destruct (create_or_derive_api_creds lib c w1) as [[creds|e] w2]; [|reflexivity].
  unfold external at 1. cbn [self world calls].
  destruct (set_api_creds lib c creds w2) as [[[]|e] w3]; reflexivity.
Qed.

(** [initialize_client] answers true exactly when the three library calls
    of an attempt (session construction, credential derivation,
    installation of the credentials) all return. *)
Theorem initialize_client_true_iff (s : state lib) :
  let cfg := config (self s) in
  fst (initialize_client s) = Ret true
  <-> exists c w1 api_creds w2 w3,
        new_ClobClient lib (Config.host cfg) (Config.private_key cfg)
          (Config.chain_id cfg) (Config.signature_type cfg)
          (Config.proxy_address cfg) (world s) = (Ret c, w1)
        /\ create_or_derive_api_creds lib c w1 = (Ret api_creds, w2)
        /\ set_api_creds lib c api_creds w2 = (Ret tt, w3).
Proof.
  intro cfg. rewrite initialize_client_unfold. fold cfg.
  destruct (new_ClobClient lib _ _ _ _ _ (world s)) as [[c|e] w1].
  2: { split; [discriminate|]. intros (c & w1' & a & w2 & w3 & H & _). discriminate. }
  destruct (create_or_derive_api_creds lib c w1) as [[creds|e] w2] eqn:Hcreds.
  2: { split; [discriminate|].
       intros (c' & w1' & a & w2' & w3 & H & H' & _).
       injection H as <- <-. rewrite Hcreds in H'. discriminate. }
  destruct (set_api_creds lib c creds w2) as [[[]|e] w3] eqn:Hset.
  - split; [|reflexivity]. intros _.
    exists c, w1, creds, w2, w3. repeat split; assumption.
  - split; [discriminate|].
    intros (c' & w1' & a & w2' & w3' & H & H' & H'').
    injection H as <- <-. rewrite Hcreds in H'. injection H' as <- <-.
    rewrite Hset in H''. discriminate.
Qed.

(** When the session is constructed and credential derivation then
    raises, the answer is false and the engine is not ready, but the new
    session object stays assigned to [self.client]; the credentials are
    never installed. *)
Theorem initialize_client_credentials_failure
        (s : state lib) (c : ClobClient lib) (e : exn) (w1 w2 : World lib) :
  let cfg := config (self s) in
  new_ClobClient lib (Config.host cfg) (Config.private_key cfg)
    (Config.chain_id cfg) (Config.signature_type cfg)
    (Config.proxy_address cfg) (world s) = (Ret c, w1) ->
  create_or_derive_api_creds lib c w1 = (Raise e, w2) ->
  fst (initialize_client s) = Ret false
  /\ client (self (snd (initialize_client s))) = Some c
  /\ _is_initialized (self (snd (initialize_client s))) = false
  /\ ready (self (snd (initialize_client s))) = false
  /\ filter (fun k => match k with Call_set_api_creds => true | _ => false end)
       (calls_during (@initialize_client lib) s) = [].
Proof.
  intros cfg Hnew Hcreds. unfold calls_during.
  rewrite initialize_client_unfold. fold cfg. rewrite Hnew, Hcreds.
  cbn [fst snd self client _is_initialized calls].
  repeat split.
  rewrite <- app_assoc, skipn_own_length. reflexivity.
Qed.

(** The answer of [initialize_client] decides what order placement does
    next: after true it returns a boolean, after false it raises
    [TradingConnectionError], also on an engine that was ready before the
    failed initialization. *)
Theorem initialization_decides_order_placement
        (s : state lib) (token_id price size : value) (side : string) :
  let s' := snd (initialize_client s) in
  (fst (initialize_client s) = Ret true ->
   exists b : bool, fst (_place_order token_id price size side s') = Ret b)
  /\ (fst (initialize_client s) = Ret false ->
      _place_order token_id price size side s'
      = (Raise (TradingConnectionError "Client not initialized"), s')).
Proof.
  intro s'. subst s'.
  rewrite initialize_client_is_single_attempt.
  destruct (initialize_client_body_runs s)
    as (b & later & s' & Hrun & _ & _ & _ & _ & _ & Hready).
  rewrite Hrun. cbn [fst snd]. split; intro Hb; injection Hb as ->.
  - destruct (ready_has_client _ Hready) as (c & Hc & _).
    rewrite (place_order_ready_unfold token_id price size side s' Hready Hc).
    destruct (_validate_token_id token_id); cbn [negb];
      [|eexists; reflexivity].
    destruct (_validate_order_params _ price size side); [|eexists; reflexivity].
    destruct (create_order lib c _ (world s')) as [[signed|e] w1];
      [|eexists; reflexivity].
    destruct (post_order lib c signed GTC w1) as [[response|e] w2];
      eexists; reflexivity.
  - unfold _place_order, bind, get. rewrite not_ready_ready, Hready. reflexivity.
Qed.

End InitializationRuns.

Lemma initialize_client_true_iff_witness :
  fst (initialize_client (constructed working_library tt sample_config)) = Ret true.
Proof.
  apply (proj2 (@initialize_client_true_iff working_library
                  (constructed working_library tt sample_config))).
  exists tt, tt, tt, tt, tt. repeat split.
Defined.

Lemma initialize_client_credentials_failure_witness :
  fst (initialize_client (constructed no_credentials_library tt sample_config))
  = Ret false
  /\ client (self (snd (initialize_client
                          (constructed no_credentials_library tt sample_config))))
     = Some tt
  /\ ready (self (snd (initialize_client
                         (constructed no_credentials_library tt sample_config))))
     = false.
Proof.
  destruct (@initialize_client_credentials_failure no_credentials_library
              (constructed no_credentials_library tt sample_config)
              tt (PolyApiException "Unauthorized") tt tt
              ltac:(reflexivity) ltac:(reflexivity)) as (Hf & Hc & _ & Hr & _).
  repeat split; assumption.
Defined.

Lemma initialization_decides_order_placement_witness :
  (exists b : bool,
      fst (_place_order (Str "token123") (Num 0.6) (Num 10.0) BUY
             (snd (initialize_client (constructed working_library tt sample_config))))
      = Ret b)
  /\ _place_order (Str "token123") (Num 0.6) (Num 10.0) BUY
       (snd (initialize_client (ready_with failing_library tt tt)))
     = (Raise (TradingConnectionError "Client not initialized"),
        snd (initialize_client (ready_with failing_library tt tt))).
Proof.
  split.
  - apply (proj1 (@initialization_decides_order_placement working_library
                    (constructed working_library tt sample_config)
                    (Str "token123") (Num 0.6) (Num 10.0) BUY)).
    reflexivity.
  - apply (proj2 (@initialization_decides_order_placement failing_library
                    (ready_with failing_library tt tt)
                    (Str "token123") (Num 0.6) (Num 10.0) BUY)).
    reflexivity.
Defined.

(* ================================================================= *)
(** ** More on the configuration checks *)

Section FormatChecks.
Local Open Scope string_scope.

Lemma all_hex_accepted (n : nat) (body : string) :
  String.length body = Datatypes.S n ->
  all_in hex_char body = true ->
  match_class_plus_dollar hex_char body = true.
Proof.
  intros Hlen Hall. apply match_all_in; [|exact Hall].
  intros ->. discriminate.
Qed.

Lemma replace_0x_prefixed_hex (body : string) :
  all_in hex_char body = true ->
  replace "0x" "" ("0x" ++ body) = body.
Proof.
  intro Hall.
  assert (Hp : String.prefix "0x" (String "0" (String "x" body)) = true).
  { rewrite prefix_cons. destruct (ascii_dec "0" "0"); [|congruence].
    rewrite prefix_cons. destruct (ascii_dec "x" "x"); [destruct body; reflexivity | congruence]. }
  unfold replace. cbn [append].
  change (replace_from "0x" "" (String "0" (String "x" body)) 0)
    with (if String.prefix "0x" (String "0" (String "x" body))
          then replace_from "0x" "" body 0
          else String "0" (replace_from "0x" "" (String "x" body) 0)).
  rewrite Hp. apply replace_0x_hex. exact Hall.
Qed.

Lemma replace_0X_prefixed_hex (body : string) :
  all_in hex_char body = true ->
  replace "0x" "" ("0X" ++ body) = "0X" ++ body.
Proof.
  intro Hall. unfold replace. cbn [append].
  assert (Hp0 : String.prefix "0x" (String "0" (String "X" body)) = false).
  { rewrite prefix_cons. destruct (ascii_dec "0" "0"); [|congruence].
    rewrite prefix_cons. destruct (ascii_dec "x" "X"); [discriminate | reflexivity]. }
  assert (Hp1 : String.prefix "0x" (String "X" body) = false).
  { rewrite prefix_cons. destruct (ascii_dec "0" "X"); [discriminate | reflexivity]. }
  change (replace_from "0x" "" (String "0" (String "X" body)) 0)
    with (if String.prefix "0x" (String "0" (String "X" body))
          then replace_from "0x" "" body 0
          else String "0"
                 (if String.prefix "0x" (String "X" body)
                  then replace_from "0x" "" body 1
                  else String "X" (replace_from "0x" "" body 0))).
  rewrite Hp0, Hp1. fold (replace "0x" "" body).
  rewrite replace_0x_hex by exact Hall. reflexivity.
Qed.

Lemma length_append (a b : string) :
  String.length (a ++ b) = (String.length a + String.length b)%nat.
Proof.
  induction a as [|c a IH]; [reflexivity|]. cbn. rewrite IH. reflexivity.
Qed.

(** The address check accepts every string of exactly 40 hexadecimal
    characters, with or without ["0x"] before them. *)
Theorem ethereum_address_40_hex_accepted (body : string) :
  String.length body = 40%nat ->
  all_in hex_char body = true ->
  Config._is_valid_ethereum_address body = true
  /\ Config._is_valid_ethereum_address ("0x" ++ body) = true.
Proof.
  intros Hlen Hall.
  pose proof (@all_hex_accepted 39 body Hlen Hall) as Hmatch.
  unfold Config._is_valid_ethereum_address. split.
  - destruct (String.eqb_spec body ""); [subst; discriminate|].
    rewrite replace_0x_hex, Hlen, Hmatch by exact Hall. reflexivity.
  - cbn [append String.eqb Ascii.eqb Bool.eqb].
    change (String "0" (String "x" body)) with ("0x" ++ body).
    rewrite replace_0x_prefixed_hex, Hlen, Hmatch by exact Hall. reflexivity.
Qed.

(** The prefix is case sensitive: 64 (or 40) hexadecimal characters after
    an upper-case ["0X"] are rejected as a secret (as an address). *)
Theorem upper_case_prefix_rejected (body : string) :
  all_in hex_char body = true ->
  (String.length body = 64%nat -> Config._is_valid_private_key ("0X" ++ body) = false)
  /\ (String.length body = 40%nat ->
      Config._is_valid_ethereum_address ("0X" ++ body) = false).
Proof.
  intro Hall.
  unfold Config._is_valid_private_key, Config._is_valid_ethereum_address.
  cbn [append String.eqb Ascii.eqb Bool.eqb].
  change (String "0" (String "X" body)) with ("0X" ++ body).
  rewrite (replace_0X_prefixed_hex _ Hall), length_append.
  split; intros ->; reflexivity.
Qed.

(** What the two format checks accept, in terms of the string left when
    every ["0x"] is taken out: it has exactly 64 (40) characters and is a
    run of hexadecimal digits, the last character possibly a line feed
    instead. *)
Theorem format_checks_accept_iff (s : string) :
  let clean := replace "0x" "" s in
  let hex_run :=
    exists t, t <> "" /\ all_in hex_char t = true
              /\ (clean = t \/ clean = t ++ String LF "") in
  (Config._is_valid_private_key s = true
   <-> String.length clean = 64%nat /\ hex_run)
  /\ (Config._is_valid_ethereum_address s = true
      <-> String.length clean = 40%nat /\ hex_run).
Proof.
  intros clean hex_run. subst hex_run.
  unfold Config._is_valid_private_key, Config._is_valid_ethereum_address.
  fold clean. rewrite <- (match_class_plus_dollar_spec hex_char clean).
  destruct (String.eqb_spec s "") as [->|Hne].
  - subst clean. cbn. split; split; try discriminate; intros [H _]; discriminate.
  - split; rewrite andb_true_iff, Nat.eqb_eq; reflexivity.
Qed.

End FormatChecks.

Section ValidationOutcome.
Local Open Scope string_scope.

(** Explicit validation succeeds exactly when the secret and the address
    are present and pass their format checks and the comparison
    max_order_size <= 0 is false; the chain id, the host, the signature
    type and the timeouts have no part in the outcome. *)
Theorem validate_true_iff (config : Config.PolymarketConfig) :
  Config.validate config = true
  <-> (exists key, Config.private_key config = Some key
                   /\ Config._is_valid_private_key key = true)
      /\ (exists address, Config.proxy_address config = Some address
                          /\ Config._is_valid_ethereum_address address = true)
      /\ le (Config.max_order_size config) 0 = false.
Proof.
  unfold Config.validate, Config.validate_errors.
  assert (Hkey : forall k, Config._is_valid_private_key k = true ->
                           Config.missing (Some k) = false).
  { intros k Hk. unfold Config._is_valid_private_key in Hk. cbn.
    destruct (String.eqb k ""); [discriminate | reflexivity]. }
  assert (Haddr : forall a, Config._is_valid_ethereum_address a = true ->
                            Config.missing (Some a) = false).
  { intros a Ha. unfold Config._is_valid_ethereum_address in Ha. cbn.
    destruct (String.eqb a ""); [discriminate | reflexivity]. }
  split.
  - intro H.
    destruct (Config.private_key config) as [key|] eqn:Ek; [|discriminate].
    destruct (Config.missing (Some key)); [discriminate|].
    destruct (Config._is_valid_private_key key) eqn:Vk; [|discriminate].
    destruct (Config.proxy_address config) as [address|] eqn:Ea; [|discriminate].
    destruct (Config.missing (Some address)); [discriminate|].
    destruct (Config._is_valid_ethereum_address address) eqn:Va; [|discriminate].
    destruct (le (Config.max_order_size config) 0) eqn:Em; [discriminate|].
    repeat split; eauto.
  - intros ((key & Ek & Vk) & (address & Ea & Va) & Hm).
    rewrite Ek, Ea, (Hkey _ Vk), (Haddr _ Va), Vk, Va, Hm. reflexivity.
Qed.

End ValidationOutcome.

Lemma ethereum_address_40_hex_accepted_witness :
  Config._is_valid_ethereum_address (times "b" 40) = true
  /\ Config._is_valid_ethereum_address ("0x" ++ times "b" 40) = true.
Proof.
  apply (@ethereum_address_40_hex_accepted (times "b" 40)); reflexivity.
Defined.

Lemma upper_case_prefix_rejected_witness :
  Config._is_valid_private_key ("0X" ++ times "a" 64) = false
  /\ Config._is_valid_ethereum_address ("0X" ++ times "b" 40) = false.
Proof.
  split.
  - apply (proj1 (@upper_case_prefix_rejected (times "a" 64) ltac:(reflexivity))).
    reflexivity.
  - apply (proj2 (@upper_case_prefix_rejected (times "b" 40) ltac:(reflexivity))).
    reflexivity.
Defined.

Lemma format_checks_accept_iff_witness :
  Config._is_valid_private_key ("0x" ++ times "a" 64) = true.
Proof.
  apply (proj2 (proj1 (format_checks_accept_iff ("0x" ++ times "a" 64)))).
  split; [reflexivity|].
  exists (times "a" 64). repeat split; [discriminate | left; reflexivity].
Defined.

Lemma validate_true_iff_witness : Config.validate sample_config = true.
Proof.
  apply (proj2 (validate_true_iff sample_config)).
  repeat split.
  - exists ("0x" ++ times "a" 64)%string. split; reflexivity.
  - exists ("0x" ++ times "b" 40)%string. split; reflexivity.
Defined.

(* ================================================================= *)
(** ** Reading the settings *)

Section SettingsLoading.
Local Open Scope string_scope.

Variable environ : string -> option string.
Variable int : string -> option Z.
Variable float : string -> option Q.

Local Abbreviation getter_private_key := (Environment._get_private_key environ).
Local Abbreviation getter_proxy_address := (Environment._get_proxy_address environ).
Local Abbreviation getter_signature_type := (Environment._get_signature_type environ int).
Local Abbreviation construct := (Environment.__init__ environ int float).

(** The two getters hand the setting back as it is and only write to the
    log. *)
Lemma get_private_key_runs (log : list Environment.log_warning) :
  exists ws,
    getter_private_key log = (Ret (environ "POLYMARKET_PRIVATE_KEY"), log ++ ws)%list
    /\ (forall key, environ "POLYMARKET_PRIVATE_KEY" = Some key -> key <> "" ->
                    Config._is_valid_private_key key = false ->
                    ws = [Environment.PrivateKeyFormat]).
Proof.
  unfold Environment._get_private_key, Environment.getenv, bind.
  destruct (environ "POLYMARKET_PRIVATE_KEY") as [key|] eqn:Ek.
  - cbn [Config.missing].
    destruct (String.eqb_spec key "") as [->|Hne]; cbn [negb andb].
    + exists []. rewrite app_nil_r. split; [reflexivity|]. intros k Hk. congruence.
    + destruct (Config._is_valid_private_key key) eqn:Vk; cbn [negb].
      * exists []. rewrite app_nil_r. split; [reflexivity|].
        intros k Hk _ Hbad. congruence.
      * exists [Environment.PrivateKeyFormat]. split; [reflexivity | reflexivity].
  - exists []. rewrite app_nil_r. split; [reflexivity|]. intros k Hk. discriminate.
Qed.

Lemma get_proxy_address_runs (log : list Environment.log_warning) :
  exists ws,
    getter_proxy_address log
    = (Ret (environ "POLYMARKET_PROXY_ADDRESS"), log ++ ws)%list.
Proof.
  unfold Environment._get_proxy_address, Environment.getenv, bind.
  destruct (environ "POLYMARKET_PROXY_ADDRESS") as [address|].
  - destruct (negb (Config.missing (Some address))
              && negb (Config._is_valid_ethereum_address address)).
    + eexists. reflexivity.
    + exists []. rewrite app_nil_r. reflexivity.
  - exists []. rewrite app_nil_r. reflexivity.
Qed.

(** One run of the signature type getter. *)
Lemma get_signature_type_runs (log : list Environment.log_warning) :
  exists v log',
    getter_signature_type log = (Ret v, log')
    /\ (v = 1 \/ v = 2)%Z
    /\ (v = 2%Z
        <-> int (Environment.getenv_default environ "POLYMARKET_SIGNATURE_TYPE" "1")
            = Some 2%Z).
Proof.
  unfold Environment._get_signature_type, try_except, bind, Environment.to_int.
  destruct (int _) as [n|] eqn:En.
  - cbn [ret]. unfold Environment.VALID_SIGNATURE_TYPES. cbn [existsb].
    destruct (Z.eqb_spec n 1) as [->|H1]; cbn [orb negb].
    + do 2 eexists. split; [reflexivity|]. split; [auto|].
      split; intro H; [discriminate | injection H as H; discriminate].
    + destruct (Z.eqb_spec n 2) as [->|H2]; cbn [orb negb].
      * do 2 eexists. split; [reflexivity|]. split; [auto|]. split; auto.
      * do 2 eexists. split; [reflexivity|]. split; [auto|].
        split; intro H; [discriminate | injection H as H; congruence].
  - cbn. do 2 eexists. split; [reflexivity|]. split; [auto|].
    split; intro H; discriminate.
Qed.

(** Whatever the setting holds, the signature type comes out as 1 or 2
    and nothing is raised: it is 2 exactly when the setting converts to
    2, and 1 for every other number, for an unset setting and for text
    that is no number. *)
Theorem signature_type_is_1_or_2 (log : list Environment.log_warning) :
  exists v log',
    getter_signature_type log = (Ret v, log')
    /\ (v = 1 \/ v = 2)%Z
    /\ (v = 2%Z
        <-> int (Environment.getenv_default environ "POLYMARKET_SIGNATURE_TYPE" "1")
            = Some 2%Z).
Proof.
  exact (get_signature_type_runs log).
Qed.

(** Construction of the configuration raises exactly when one of the five
    numeric settings (chain id, maximum order size, the two timeouts, the
    retry count) does not convert; the secret, the address and the
    signature type never make it raise. *)
Theorem config_construction_returns_iff (log : list Environment.log_warning) :
  (exists config log', construct log = (Ret config, log'))
  <-> (exists chain_id max_order_size connection_timeout request_timeout max_retries,
          int (Environment.getenv_default environ "POLYMARKET_CHAIN_ID" "137")
          = Some chain_id
          /\ float (Environment.getenv_default environ "POLYMARKET_MAX_ORDER_SIZE" "1000.0")
             = Some max_order_size
          /\ int (Environment.getenv_default environ "POLYMARKET_CONNECTION_TIMEOUT" "30")
             = Some connection_timeout
          /\ int (Environment.getenv_default environ "POLYMARKET_REQUEST_TIMEOUT" "10")
             = Some request_timeout
          /\ int (Environment.getenv_default environ "POLYMARKET_MAX_RETRIES" "3")
             = Some max_retries).
Proof.
  unfold Environment.__init__, bind, Environment.to_int at 1.
  destruct (int (Environment.getenv_default environ "POLYMARKET_CHAIN_ID" "137"))
    as [chain|] eqn:Ec.
  2: { split; [intros (c & l & H); discriminate|].
       intros (a & b & c & d & e & H & _). discriminate. }
  cbn [ret].
  destruct (get_private_key_runs log) as (ws1 & -> & _).
  destruct (get_proxy_address_runs (log ++ ws1)) as (ws2 & ->).
  destruct (get_signature_type_runs ((log ++ ws1) ++ ws2)) as (v & log3 & -> & _).
  unfold Environment.to_float, Environment.to_int.
  destruct (float _) as [m|] eqn:Em.
  2: { split; [intros (c & l & H); discriminate|].
       intros (a & b & c & d & e & _ & H & _). discriminate. }
  cbn [ret].
  destruct (int (Environment.getenv_default environ "POLYMARKET_CONNECTION_TIMEOUT" "30"))
    as [ct|] eqn:Ect.
  2: { split; [intros (c & l & H); discriminate|].
       intros (a & b & c & d & e & _ & _ & H & _). discriminate. }
  cbn [ret].
  destruct (int (Environment.getenv_default environ "POLYMARKET_REQUEST_TIMEOUT" "10"))
    as [rt|] eqn:Ert.
  2: { split; [intros (c & l & H); discriminate|].
       intros (a & b & c & d & e & _ & _ & _ & H & _). discriminate. }
  cbn [ret].
  destruct (int (Environment.getenv_default environ "POLYMARKET_MAX_RETRIES" "3"))
    as [mr|] eqn:Emr.
  2: { split; [intros (c & l & H); discriminate|].
       intros (a & b & c & d & e & _ & _ & _ & _ & H). discriminate. }
  cbn [ret]. split.
  - intros _. exists chain, m, ct, rt, mr. repeat split; reflexivity.
  - intros _. do 2 eexists. reflexivity.
Qed.

(** A constructed configuration holds the secret and the address exactly
    as the environment gives them, and a signature type of 1 or 2. *)
Theorem constructed_config_fields
        (log log' : list Environment.log_warning) (config : Config.PolymarketConfig) :
  construct log = (Ret config, log') ->
  Config.private_key config = environ "POLYMARKET_PRIVATE_KEY"
  /\ Config.proxy_address config = environ "POLYMARKET_PROXY_ADDRESS"
  /\ (Config.signature_type config = 1 \/ Config.signature_type config = 2)%Z.
Proof.
  unfold Environment.__init__, bind, Environment.to_int at 1.
  destruct (int (Environment.getenv_default environ "POLYMARKET_CHAIN_ID" "137"));
    [|discriminate].
  cbn [ret].
  destruct (get_private_key_runs log) as (ws1 & -> & _).
  destruct (get_proxy_address_runs (log ++ ws1)) as (ws2 & ->).
  destruct (get_signature_type_runs ((log ++ ws1) ++ ws2)) as (v & log3 & -> & Hv & _).
  unfold Environment.to_float, Environment.to_int.
  destruct (float _); [|discriminate]. cbn [ret].
  destruct (int (Environment.getenv_default environ "POLYMARKET_CONNECTION_TIMEOUT" "30"));
    [|discriminate].
  cbn [ret].
  destruct (int (Environment.getenv_default environ "POLYMARKET_REQUEST_TIMEOUT" "10"));
    [|discriminate].
  cbn [ret].
  destruct (int (Environment.getenv_default environ "POLYMARKET_MAX_RETRIES" "3"));
    [|discriminate].
  cbn [ret]. intro H. injection H as <- _. cbn.
  repeat split. exact Hv.
Qed.

(** A secret of the wrong format does not stop construction: it is kept
    in the configuration with a warning in the log, and explicit
    validation of that configuration then fails. *)
Theorem malformed_secret_loads_then_fails_validation
        (log log' : list Environment.log_warning) (config : Config.PolymarketConfig)
        (key : string) :
  environ "POLYMARKET_PRIVATE_KEY" = Some key ->
  key <> "" ->
  Config._is_valid_private_key key = false ->
  construct log = (Ret config, log') ->
  Config.private_key config = Some key
  /\ In Environment.PrivateKeyFormat log'
  /\ Config.validate config = false.
Proof.
  intros Hkey Hne Hbad Hrun.
  pose proof (constructed_config_fields log Hrun) as (Hpk & _ & _).
  rewrite Hkey in Hpk.
  split; [exact Hpk|]. split.
  - revert Hrun.
    unfold Environment.__init__, bind, Environment.to_int at 1.
    destruct (int (Environment.getenv_default environ "POLYMARKET_CHAIN_ID" "137"));
      [|discriminate].
    cbn [ret].
    destruct (get_private_key_runs log) as (ws1 & -> & Hws).
    rewrite (Hws key Hkey Hne Hbad).
    destruct (get_proxy_address_runs (log ++ [Environment.PrivateKeyFormat]))
      as (ws2 & ->).
    destruct (get_signature_type_runs ((log ++ [Environment.PrivateKeyFormat]) ++ ws2))
      as (v & log3 & Hsig & _).
    assert (Hgrow : exists ws3, log3 = (((log ++ [Environment.PrivateKeyFormat]) ++ ws2)
                                        ++ ws3)%list).
    { revert Hsig.
      unfold Environment._get_signature_type, try_except, bind, Environment.to_int.
      destruct (int _) as [n|]; cbn [ret raise dispatch Environment.is_ValueError].
      - destruct (negb _); cbn; intro H; injection H as _ <-.
        + eexists. reflexivity.
        + exists []. rewrite app_nil_r. reflexivity.
      - cbn. intro H. injection H as _ <-. eexists. reflexivity. }
    rewrite Hsig. destruct Hgrow as (ws3 & ->).
    unfold Environment.to_float, Environment.to_int.
    destruct (float _); [|discriminate]. cbn [ret].
    destruct (int (Environment.getenv_default environ "POLYMARKET_CONNECTION_TIMEOUT" "30"));
      [|discriminate].
    cbn [ret].
    destruct (int (Environment.getenv_default environ "POLYMARKET_REQUEST_TIMEOUT" "10"));
      [|discriminate].
    cbn [ret].
    destruct (int (Environment.getenv_default environ "POLYMARKET_MAX_RETRIES" "3"));
      [|discriminate].
    cbn [ret]. intro H. injection H as _ <-.
    apply in_or_app. left. apply in_or_app. left. apply in_or_app. right. left. reflexivity.
  - apply (validate_reports_invalid_private_key config Hpk Hne Hbad).
Qed.

End SettingsLoading.

Lemma constructed_config_fields_witness :
  exists config log',
    Environment.__init__ environ_with_bad_key sample_int sample_float []
    = (Ret config, log')
    /\ Config.private_key config = Some "invalid_key"%string
    /\ (Config.signature_type config = 1 \/ Config.signature_type config = 2)%Z.
Proof.
  do 2 eexists. split; [reflexivity|].
  destruct (@constructed_config_fields environ_with_bad_key sample_int sample_float
              [] _ _ eq_refl) as (Hk & _ & Hs).
  split; [exact Hk | exact Hs].
Defined.

Lemma malformed_secret_loads_then_fails_validation_witness :
  exists config log',
    Environment.__init__ environ_with_bad_key sample_int sample_float []
    = (Ret config, log')
    /\ Config.private_key config = Some "invalid_key"%string
    /\ In Environment.PrivateKeyFormat log'
    /\ Config.validate config = false.
Proof.
  do 2 eexists. split; [reflexivity|].
  apply (@malformed_secret_loads_then_fails_validation
           environ_with_bad_key sample_int sample_float [] _ _ "invalid_key"%string).
  - reflexivity.
  - discriminate.
  - reflexivity.
  - reflexivity.
Defined.

Lemma config_construction_returns_iff_witness :
  exists config log',
    Environment.__init__ empty_environ sample_int sample_float [] = (Ret config, log').
Proof.
  apply (proj2 (@config_construction_returns_iff empty_environ sample_int sample_float [])).
  exists 137%Z, 1000.0%Q, 30%Z, 10%Z, 3%Z. repeat split.
Defined.

(* ================================================================= *)
(** ** The command line *)

(** The only exception the numeric checks raise is [ValidationError]. *)
Lemma validate_order_params_raises_validation_error
      (limits : Limits.TradingLimits) (price size : value) (side : string) (e : exn) :
  _validate_order_params limits price size side = Raise e ->
  is_ValidationError e = true.
Proof.
  unfold _validate_order_params.
  destruct price as [p| |]; try (intro H; injection H as <-; reflexivity).
  destruct (le p 0); try (intro H; injection H as <-; reflexivity).
  destruct size as [sz| |]; try (intro H; injection H as <-; reflexivity).
  repeat match goal with
         | |- context [if ?c then _ else _] => destruct c
         end;
    intro H; first [discriminate | injection H as <-; reflexivity].
Qed.

Section CommandLine.
Local Open Scope string_scope.

Variable lib : ClobLibrary.

(** Arguments that pass [validate_trade_args] have a non-empty token id,
    a price for which 0.01 <= price <= 1.0 is true and a size for which
    size <= 0 is false; for them the trader's own numeric checks succeed
    exactly when its two comparisons of the size with the limits,
    size < 0.1 and size > max_order_size, are false. *)
Theorem cli_checks_leave_only_size_limits (args : Cli.Namespace) :
  Cli.validate_trade_args args = true ->
  exists p sz,
    Cli.price args = Some p /\ Cli.size args = Some sz
    /\ Cli.token_id args <> ""
    /\ le 0.01 p = true /\ le p 1.0 = true /\ le sz 0 = false
    /\ forall (config : Config.PolymarketConfig) (side : string),
         _validate_order_params (Config.get_trading_limits config)
           (Num p) (Num sz) side = Ret tt
         <-> lt sz 0.1 = false /\ gt sz (Config.max_order_size config) = false.
Proof.
  unfold Cli.validate_trade_args.
  destruct (String.eqb_spec (Cli.token_id args) ""); [discriminate|].
  destruct (Cli.price args) as [p|]; [|discriminate].
  destruct (Cli.size args) as [sz|]; [|discriminate].
  destruct (le 0.01 p) eqn:E1; [|discriminate].
  destruct (le p 1.0) eqn:E2; [|discriminate].
  cbn [andb negb].
  destruct (le sz 0) eqn:E3; [discriminate|]. intros _.
  exists p, sz.
  split; [reflexivity|]. split; [reflexivity|]. split; [assumption|].
  split; [exact E1|]. split; [exact E2|]. split; [exact E3|].
  apply le_iff in E1, E2. apply le_false_iff in E3.
  intros config side. unfold gt. rewrite !lt_false_iff. split.
  - intro H. apply numeric_checks_accept_ranges in H.
    destruct H as (p' & s' & Hp & Hs & _ & _ & _ & _ & Hmin & Hmax).
    injection Hp as <-. injection Hs as <-. split; assumption.
  - intros (Hmin & Hmax). apply numeric_checks_accept_ranges.
    exists p, sz. cbn. repeat split; try assumption; lra.
Qed.


(** A live trade is the order placement of the trader, buy for the side
    ["buy"] and sell for any other side, with every exception it raises
    turned into the answer false. *)
Lemma live_trade_is_order_placement (args : Cli.Namespace) (s : state lib) :
  Cli.dry_run args = false ->
  let side := if String.eqb (Cli.side args) "buy" then BUY else SELL in
  let run := _place_order (Str (Cli.token_id args)) (Cli.as_value (Cli.price args))
               (Cli.as_value (Cli.size args)) side s in
  Cli.handle_trade_command args s
  = (Ret (match fst run with Ret b => b | Raise _ => false end), snd run).
Proof.
  intros Hdry side run. subst run side.
  unfold Cli.handle_trade_command. rewrite Hdry.
  unfold try_except, bind, place_buy_order, place_sell_order.
  destruct (String.eqb (Cli.side args) "buy").
  - destruct (_place_order _ _ _ BUY s) as [[[]|e] s']; cbn [fst snd ret]; try reflexivity.
    destruct e; reflexivity.
  - destruct (_place_order _ _ _ SELL s) as [[[]|e] s']; cbn [fst snd ret]; try reflexivity.
    destruct e; reflexivity.
Qed.

(** At the command line an engine that is not ready gives the answer
    false, with the state untouched: the [TradingConnectionError] of the
    trader does not leave [handle_trade_command]. *)
Theorem live_trade_not_ready_answers_false (args : Cli.Namespace) (s : state lib) :
  Cli.dry_run args = false ->
  ready (self s) = false ->
  Cli.handle_trade_command args s = (Ret false, s).
Proof.
  intros Hdry Hready.
  rewrite (live_trade_is_order_placement args s Hdry).
  assert (Hrun : forall side,
             _place_order (Str (Cli.token_id args)) (Cli.as_value (Cli.price args))
               (Cli.as_value (Cli.size args)) side s
             = (Raise (TradingConnectionError "Client not initialized"), s)).
  { intro side. unfold _place_order, bind, get.
    rewrite not_ready_ready, Hready. reflexivity. }
  rewrite Hrun. reflexivity.
Qed.

(** A live trade never raises, and its answer is the answer of the order
    placement whenever the engine is ready. *)
Theorem live_trade_answer (args : Cli.Namespace) (s : state lib) :
  Cli.dry_run args = false ->
  ready (self s) = true ->
  let side := if String.eqb (Cli.side args) "buy" then BUY else SELL in
  Cli.handle_trade_command args s
  = _place_order (Str (Cli.token_id args)) (Cli.as_value (Cli.price args))
      (Cli.as_value (Cli.size args)) side s.
Proof.
  intros Hdry Hready side.
  rewrite (live_trade_is_order_placement args s Hdry). fold side.
  destruct (place_order_runs (Str (Cli.token_id args)) (Cli.as_value (Cli.price args))
              (Cli.as_value (Cli.size args)) side s); cbn [fst snd];
    try reflexivity; congruence.
Qed.

End CommandLine.

(* ================================================================= *)
(** ** The main program *)

Section MainProgram.
Local Open Scope string_scope.
Local Open Scope list_scope.

Variable lib : ClobLibrary.

(** The session constructor call made for a configuration. *)
Let construction (config : Config.PolymarketConfig) : call :=
  Call_ClobClient (Config.host config) (Config.private_key config)
    (Config.chain_id config) (Config.signature_type config)
    (Config.proxy_address config).

(** A command was given on the command line. *)
Let command_given (args : Cli.Namespace) : Prop :=
  exists name, Cli.command args = Some name /\ name <> "".

(** The log of one initialization from a freshly constructed trader. *)
Lemma initialize_client_log (config : Config.PolymarketConfig) (s : state lib) :
  let s0 := {| self := __init__ lib config; world := world s; calls := calls s |} in
  exists (b : bool) (s1 : state lib) (later : list call),
    initialize_client s0 = (Ret b, s1)
    /\ calls s1 = calls s ++ construction config :: later
    /\ forallb (fun c => negb (is_create_order c)) later = true
    /\ _trading_limits (self s1) = Config.get_trading_limits config
    /\ ready (self s1) = b.
Proof.
  intro s0. rewrite initialize_client_unfold. subst s0. cbn [self Trader.config __init__ world calls].
  destruct (new_ClobClient lib _ _ _ _ _ (world s)) as [[c|e] w1].
  - destruct (create_or_derive_api_creds lib c w1) as [[creds|e] w2].
    + destruct (set_api_creds lib c creds w2) as [[[]|e] w3].
      * exists true. eexists. exists [Call_create_or_derive_api_creds; Call_set_api_creds].
        split; [reflexivity|]. cbn. rewrite <- !app_assoc. repeat split.
      * exists false. eexists. exists [Call_create_or_derive_api_creds; Call_set_api_creds].
        split; [reflexivity|]. cbn. rewrite <- !app_assoc. repeat split.
    + exists false. eexists. exists [Call_create_or_derive_api_creds].
      split; [reflexivity|]. cbn. rewrite <- !app_assoc. repeat split.
  - exists false. eexists. exists []. split; [reflexivity|]. cbn. repeat split.
Qed.

(** A dry run, written out. *)
Lemma dry_run_unfold (args : Cli.Namespace) (p sz : Q) (s : state lib) :
  Cli.dry_run args = true ->
  Cli.price args = Some p ->
  Cli.size args = Some sz ->
  Cli.handle_trade_command args s
  = (Ret (match _validate_order_params (_trading_limits (self s)) (Num p) (Num sz)
                  (Cli.upper (Cli.side args)) with
          | Ret _ => true
          | Raise _ => false
          end), s).
Proof.
  intros Hdry Hp Hsz.
  unfold Cli.handle_trade_command, Cli.printed_total. rewrite Hdry, Hp, Hsz.
  unfold bind, get, try_except, lift. cbn [ret Cli.as_value].
  destruct (_validate_order_params (_trading_limits (self s)) (Num p) (Num sz)
              (Cli.upper (Cli.side args))) as [[]|e] eqn:Hv; [reflexivity|].
  cbn [dispatch]. rewrite (validate_order_params_raises_validation_error _ _ _ _ Hv).
  reflexivity.
Qed.

(** Every run of [main], case by case: the exit status, and the calls
    added to the log ([later] by the initialization, [made] by the
    trade). *)
Lemma main_runs (args : Cli.Namespace) (config : Config.PolymarketConfig)
      (s : state lib) :
  exists (st : Cli.exit_status) (s' : state lib),
    Cli.main args config s = (Ret st, s')
    /\ ((~ command_given args /\ st = Cli.Returned /\ s' = s)
        \/ (command_given args /\ Config.validate config = false
            /\ st = Cli.Exit 1 /\ s' = s)
        \/ (command_given args /\ Config.validate config = true
            /\ (st = Cli.Exit 0 \/ st = Cli.Exit 1)
            /\ exists later made,
                 calls s' = calls s ++ (construction config :: later) ++ made
                 /\ forallb (fun c => negb (is_create_order c)) later = true
                 /\ (made = []
                     \/ (Cli.dry_run args = false
                         /\ Cli.validate_trade_args args = true
                         /\ _validate_token_id (Str (Cli.token_id args)) = true
                         /\ exists side,
                              _validate_order_params (Config.get_trading_limits config)
                                (Cli.as_value (Cli.price args))
                                (Cli.as_value (Cli.size args)) side = Ret tt
                              /\ let order_args :=
                                   {| Trader.price := Cli.as_value (Cli.price args);
                                      Trader.size := Cli.as_value (Cli.size args);
                                      Trader.side := side;
                                      Trader.token_id := Str (Cli.token_id args) |} in
                                 made = [Call_create_order order_args]
                                 \/ made = [Call_create_order order_args;
                                            Call_post_order GTC])))).
Proof.
  unfold Cli.main, command_given.
  destruct (Cli.command args) as [name|] eqn:Hcmd.
  2: { do 2 eexists. split; [reflexivity|]. left.
       split; [|split; reflexivity]. intros (n & H & _). discriminate. }
  destruct (String.eqb_spec name "") as [->|Hname].
  { do 2 eexists. split; [reflexivity|]. left.
    split; [|split; reflexivity]. intros (n & H & Hn). congruence. }
  assert (Hgiven : exists n, Some name = Some n /\ n <> "") by (exists name; auto).
  destruct (Config.validate config) eqn:Hvalid; cbn [negb].
  2: { do 2 eexists. split; [reflexivity|]. right. left. repeat split; auto. }
  unfold bind at 1. unfold Cli.construct_trader, modify. unfold bind at 1.
  destruct (initialize_client_log config s)
    as (b & s1 & later & Hinit & Hcalls & Hlater & Hlimits & Hready).
  cbv zeta in Hinit. rewrite Hinit.
  assert (Hnone : calls s1 = calls s ++ (construction config :: later) ++ []).
  { rewrite app_nil_r. exact Hcalls. }
  destruct b; cbn [negb].
  2: { do 2 eexists. split; [reflexivity|]. right. right.
       repeat split; auto. exists later, []. repeat split; auto. }
  destruct (String.eqb name "trade").
  2: { do 2 eexists. split; [reflexivity|]. right. right.
       repeat split; auto. exists later, []. repeat split; auto. }
  destruct (Cli.validate_trade_args args) eqn:Hargs; cbn [negb].
  2: { do 2 eexists. split; [reflexivity|]. right. right.
       repeat split; auto. exists later, []. repeat split; auto. }
  unfold bind.
  destruct (Cli.dry_run args) eqn:Hdry.
  - assert (Hnum : exists p sz, Cli.price args = Some p /\ Cli.size args = Some sz).
    { revert Hargs. unfold Cli.validate_trade_args.
      destruct (String.eqb _ ""); [discriminate|].
      destruct (Cli.price args) as [p|]; [|discriminate].
      destruct (Cli.size args) as [sz|]; [|discriminate]. eauto. }
    destruct Hnum as (p & sz & Hp & Hsz).
    rewrite (dry_run_unfold args s1 Hdry Hp Hsz).
    do 2 eexists. split; [reflexivity|]. right. right.
    split; [auto|]. split; [reflexivity|]. split.
    + destruct (_validate_order_params _ _ _ _); auto.
    + exists later, []. repeat split; auto.
  - rewrite (live_trade_is_order_placement args s1 Hdry).
    set (side := if String.eqb (Cli.side args) "buy" then BUY else SELL).
    pose proof (place_order_runs (Str (Cli.token_id args))
                  (Cli.as_value (Cli.price args)) (Cli.as_value (Cli.size args))
                  side s1) as Hrun.
    destruct Hrun as [Hr | Hr Ht | why Hr Ht Hp | oa s2 Hr Ht Hp Hoa Hself Hc2
                      | answer oa s2 Hr Ht Hp Hoa Hself Hc2]; cbn [fst snd].
    + congruence.
    + do 2 eexists. split; [reflexivity|]. right. right.
      repeat split; auto. exists later, []. repeat split; auto.
    + do 2 eexists. split; [reflexivity|]. right. right.
      repeat split; auto. exists later, []. repeat split; auto.
    + do 2 eexists. split; [reflexivity|]. right. right.
      split; [auto|]. split; [reflexivity|]. split; [auto|].
      exists later, [Call_create_order oa].
      split; [rewrite Hc2, Hcalls, <- app_assoc; reflexivity|].
      split; [exact Hlater|]. right.
      repeat split; auto. exists side. rewrite <- Hlimits. split; [exact Hp|].
      cbv zeta. rewrite <- Hoa. left. reflexivity.
    + do 2 eexists. split; [reflexivity|]. right. right.
      split; [auto|]. split; [reflexivity|]. split; [destruct answer; auto|].
      exists later, [Call_create_order oa; Call_post_order GTC].
      split; [rewrite Hc2, Hcalls, <- app_assoc; reflexivity|].
      split; [exact Hlater|]. right.
      repeat split; auto. exists side. rewrite <- Hlimits. split; [exact Hp|].
      cbv zeta. rewrite <- Hoa. right. reflexivity.
Qed.

End MainProgram.

Section MainProperties.
Local Open Scope string_scope.
Local Open Scope list_scope.

Variable lib : ClobLibrary.

Lemma no_create_order_in (later : list call) (order_args : OrderArgs) :
  forallb (fun c => negb (is_create_order c)) later = true ->
  ~ In (Call_create_order order_args) later.
Proof.
  intros Hall Hin. rewrite forallb_forall in Hall.
  specialize (Hall _ Hin). discriminate.
Qed.


(** With a configuration that fails validation, [main] exits with status
    1 before a trader exists: the state is untouched and the library is
    not called. *)
Theorem main_refuses_invalid_configuration
        (args : Cli.Namespace) (config : Config.PolymarketConfig) (s : state lib)
        (name : string) :
  Cli.command args = Some name -> name <> "" ->
  Config.validate config = false ->
  Cli.main args config s = (Ret (Cli.Exit 1), s).
Proof.
  intros Hcmd Hname Hvalid. unfold Cli.main. rewrite Hcmd, Hvalid.
  destruct (String.eqb_spec name ""); [contradiction | reflexivity].
Qed.

(** A dry run through [main] still constructs the session (the first call
    logged is the session constructor), and it never asks the library to
    sign an order. *)
Theorem main_dry_run_initializes_without_signing
        (args : Cli.Namespace) (config : Config.PolymarketConfig) (s : state lib)
        (name : string) :
  Cli.command args = Some name -> name <> "" ->
  Config.validate config = true ->
  Cli.dry_run args = true ->
  exists later,
    calls_during (Cli.main args config) s
    = Call_ClobClient (Config.host config) (Config.private_key config)
        (Config.chain_id config) (Config.signature_type config)
        (Config.proxy_address config) :: later
    /\ forallb (fun c => negb (is_create_order c)) later = true.
Proof.
  intros Hcmd Hname Hvalid Hdry.
  destruct (main_runs args config s) as (st & s' & Hrun & Hcases).
  unfold calls_during. rewrite Hrun. cbn [snd].
  destruct Hcases
    as [(Hno & _) | [(_ & Hbad & _) | (_ & _ & _ & later & made & Hcalls & Hlater & Hmade)]].
  - exfalso. apply Hno. exists name. auto.
  - congruence.
  - destruct Hmade as [-> | (Hlive & _)]; [|congruence].
    rewrite Hcalls, skipn_own_length, app_nil_r. exists later. auto.
Qed.

(** Across the whole program an order reaches the signing capability only
    when the configuration passed validation, the run is not a dry run,
    the arguments passed the checks of the command line, and the token id
    and the numbers passed the checks of the trader under the limits of
    that configuration. *)
Theorem main_signs_only_validated_orders
        (args : Cli.Namespace) (config : Config.PolymarketConfig) (s : state lib)
        (order_args : OrderArgs) :
  In (Call_create_order order_args) (calls_during (Cli.main args config) s) ->
  Config.validate config = true
  /\ Cli.dry_run args = false
  /\ Cli.validate_trade_args args = true
  /\ _validate_token_id (Str (Cli.token_id args)) = true
  /\ _validate_order_params (Config.get_trading_limits config)
       (Cli.as_value (Cli.price args)) (Cli.as_value (Cli.size args))
       (Trader.side order_args) = Ret tt
  /\ Trader.token_id order_args = Str (Cli.token_id args)
  /\ Trader.price order_args = Cli.as_value (Cli.price args)
  /\ Trader.size order_args = Cli.as_value (Cli.size args).
Proof.
  destruct (main_runs args config s) as (st & s' & Hrun & Hcases).
  unfold calls_during. rewrite Hrun. cbn [snd]. intro Hin.
  destruct Hcases
    as [(_ & _ & ->) | [(_ & _ & _ & ->)
                       | (_ & Hvalid & _ & later & made & Hcalls & Hlater & Hmade)]].
  - rewrite skipn_all in Hin. destruct Hin.
  - rewrite skipn_all in Hin. destruct Hin.
  - rewrite Hcalls, skipn_own_length in Hin.
    cbn [app] in Hin. destruct Hin as [Hin | Hin]; [discriminate|].
    apply in_app_or in Hin. destruct Hin as [Hin | Hin].
    + exfalso. exact (no_create_order_in _ _ Hlater Hin).
    + destruct Hmade as [-> | (Hlive & Hargs & Htok & side & Hpar & Hmade)];
        [destruct Hin|].
      cbv zeta in Hmade.
      assert (Hoa : order_args
                    = {| Trader.price := Cli.as_value (Cli.price args);
                         Trader.size := Cli.as_value (Cli.size args);
                         Trader.side := side;
                         Trader.token_id := Str (Cli.token_id args) |}).
      { destruct Hmade as [-> | ->].
        - destruct Hin as [H | []]. injection H as <-. reflexivity.
        - destruct Hin as [H | [H | []]]; [|discriminate].
          injection H as <-. reflexivity. }
      subst order_args. cbn. repeat split; assumption.
Qed.

End MainProperties.

Lemma main_refuses_invalid_configuration_witness :
  Cli.main trade_args (with_private_key sample_config (Some "invalid_key"%string))
    (constructed working_library tt sample_config)
  = (Ret (Cli.Exit 1), constructed working_library tt sample_config).
Proof.
  apply (@main_refuses_invalid_configuration working_library trade_args
           (with_private_key sample_config (Some "invalid_key"%string))
           (constructed working_library tt sample_config) "trade"%string).
  - reflexivity.
  - discriminate.
  - reflexivity.
Defined.

Lemma main_dry_run_initializes_without_signing_witness :
  calls_during (Cli.main (with_dry_run trade_args) sample_config)
    (constructed working_library tt sample_config)
  = [Call_ClobClient (Config.host sample_config) (Config.private_key sample_config)
       (Config.chain_id sample_config) (Config.signature_type sample_config)
       (Config.proxy_address sample_config);
     Call_create_or_derive_api_creds;
     Call_set_api_creds].
Proof.
  destruct (@main_dry_run_initializes_without_signing working_library
              (with_dry_run trade_args) sample_config
              (constructed working_library tt sample_config) "trade"%string
              ltac:(reflexivity) ltac:(discriminate) ltac:(reflexivity)
              ltac:(reflexivity)) as (later & _ & _).
  reflexivity.
Defined.

Lemma main_signs_only_validated_orders_witness :
  Config.validate sample_config = true
  /\ Cli.dry_run trade_args = false
  /\ Cli.validate_trade_args trade_args = true.
Proof.
  destruct (@main_signs_only_validated_orders working_library trade_args sample_config
              (constructed working_library tt sample_config)
              {| Trader.price := Num 0.6; Trader.size := Num 10.0;
                 Trader.side := BUY; Trader.token_id := Str "token123" |}
              ltac:(vm_compute; do 3 right; left; reflexivity))
    as (Hv & Hd & Ha & _).
  repeat split; assumption.
Defined.

Lemma cli_checks_leave_only_size_limits_witness :
  _validate_order_params (Config.get_trading_limits sample_config)
    (Num 0.6) (Num 10.0) BUY = Ret tt
  <-> lt 10.0 0.1 = false /\ gt 10.0 (Config.max_order_size sample_config) = false.
Proof.
  destruct (@cli_checks_leave_only_size_limits trade_args ltac:(reflexivity))
    as (p & sz & Hp & Hsz & _ & _ & _ & _ & Hiff).
  injection Hp as <-. injection Hsz as <-.
  apply Hiff.
Defined.


Lemma live_trade_not_ready_answers_false_witness :
  Cli.handle_trade_command trade_args (constructed working_library tt sample_config)
  = (Ret false, constructed working_library tt sample_config).
Proof.
  apply (@live_trade_not_ready_answers_false working_library trade_args
           (constructed working_library tt sample_config));
    reflexivity.
Defined.

Lemma live_trade_answer_witness :
  Cli.handle_trade_command trade_args ready_state
  = _place_order (Str "token123") (Num 0.6) (Num 10.0) BUY ready_state.
Proof.
  apply (@live_trade_answer working_library trade_args ready_state); reflexivity.
Defined.

Lemma validate_token_id_accepts_iff_witness :
  _validate_token_id (Str "token-123_A") = true.
Proof.
  apply (proj2 (validate_token_id_accepts_iff (Str "token-123_A"))).
  exists "token-123_A"%string. repeat split; [discriminate | left; reflexivity].
Defined.

(* ================================================================= *)
(** ** Backoffs that cannot be computed or slept *)

Section BackoffLimits.

(** From the attempt with index 1024 on, the power of two no longer
    converts to a float: with 1026 attempts allowed and a delay of 0.0,
    an operation that always fails is called 1025 times, and the caller
    gets that [OverflowError]. *)
Example backoff_conversion_overflows :
  let run := retry_on_failure mock_sleep 1026 0 (mock always_failing) tt fresh in
  fst run = Raise (OverflowError "int too large to convert to float")
  /\ call_count (snd run) = 1025%nat
  /\ List.length (slept (snd run)) = 1024%nat.
Proof. cbv zeta. repeat split; vm_compute; reflexivity. Qed.

(** A length of 10^10 seconds does not fit the time type: the first
    backoff raises, whatever its sign. *)
Example sleep_length_overflows :
  fst (retry_on_failure mock_sleep 2 10000000000 (mock always_failing) tt fresh)
  = Raise (OverflowError "timestamp too large to convert to C _PyTime_t")
  /\ fst (retry_on_failure mock_sleep 2 (-10000000000) (mock always_failing) tt fresh)
     = Raise (OverflowError "timestamp too large to convert to C _PyTime_t").
Proof. split; vm_compute; reflexivity. Qed.

End BackoffLimits.
